(** * Verification of the Nylas calendar convenience layer ([utils.py])

    A shallow embedding of [utils.py]: the time normaliser [parse_when],
    the inbound parser [parse_nylas_event], [fuzzy_search_events] and the
    methods of [NylasScheduler], followed by the properties the
    specification states about them.

    Modelling conventions.
    - Python exceptions are values of [Exn]; a pure function that may
      raise returns a [Result], a method of the scheduler is a state
      transformer that returns a [Result] together with the state it
      leaves behind (mutations made before a raise are kept).
    - The external services are interfaces: the calendar API is the class
      [Collaborator], BeautifulSoup, fuzzywuzzy, [str.lower], the zone
      database and [pendulum.parse] are the class [Libraries].
    - [logger.error] is recorded in the scheduler state, [print] appends
      to [stdout]; [logger.info] has no effect on results and is left out.
    - Date-time arithmetic of pendulum is modelled on unbounded integers
      (microseconds since the epoch); a zone is its list of transitions,
      so that zones with daylight saving are covered. The year range of
      [datetime] is outside the model. *)

From Stdlib Require Import ZArith List String Ascii Bool Lia Permutation Sorted.
From Stdlib Require Import DecimalString.
Import ListNotations.
Local Open Scope string_scope.
Local Open Scope list_scope.
Local Open Scope Z_scope.

(** String concatenation, as an f-string or [+] builds it. *)
Infix "+++" := String.append (right associativity, at level 60).



(* ================================================================== *)
(** * Exceptions and results *)

Inductive Exn : Type :=
| NylasApiError (message : string)
| NylasOAuthError (error_description : string)
| NylasSdkTimeoutError (url : string)
| ValueError (msg : string)
| ParserError (text : string)
| InvalidTimezone (name : string)
| ValidationError (field : string)
| AttributeError (class_name : string)
| OtherException (msg : string).

Inductive Result (A : Type) : Type :=
| Ok (a : A)
| Raise (e : Exn).

Arguments Ok {A} a.
Arguments Raise {A} e.

Definition bindR {A B} (r : Result A) (k : A -> Result B) : Result B :=
  match r with
  | Ok a => k a
  | Raise e => Raise e
  end.

Declare Scope result_scope.
Delimit Scope result_scope with result.
Notation "x <~ r ;; k" := (bindR r (fun x => k))
  (at level 100, r at next level, right associativity) : result_scope.
Notation "' p <~ r ;; k" := (bindR r (fun v => let p := v in k))
  (at level 100, p pattern, r at next level, right associativity) : result_scope.
Local Open Scope result_scope.

(** A list comprehension whose element expression may raise: the first
    exception aborts the comprehension. *)
Fixpoint mapR {A B} (f : A -> Result B) (l : list A) : Result (list B) :=
  match l with
  | [] => Ok []
  | x :: l' => y <~ f x ;; ys <~ mapR f l' ;; Ok (y :: ys)
  end.

(** The error kinds of the specification (section 7), and the kind each
    exception class of the code falls under. *)
Inductive ErrorKind : Type :=
| InvalidInputError | AuthError | RemoteApiError | TimeoutError | UnknownError.

Definition error_kind (e : Exn) : ErrorKind :=
  match e with
  | NylasApiError _ => RemoteApiError
  | NylasOAuthError _ => AuthError
  | NylasSdkTimeoutError _ => TimeoutError
  | ValueError _ | ParserError _ | InvalidTimezone _ | ValidationError _ =>
      InvalidInputError
  | AttributeError _ | OtherException _ => UnknownError
  end.

(* ================================================================== *)
(** * Python values and truthiness *)

Inductive PyObject : Type :=
| PyNone
| PyBool (b : bool)
| PyInt (z : Z)
| PyStr (s : string)
| PyDict (items : list (string * string)).

(** [if s:] for an optional string: [None] and the empty string are falsy. *)
Definition truthy_str (s : option string) : bool :=
  match s with
  | Some (String _ _) => true
  | _ => false
  end.

(** [if l:] for an optional list: [None] and the empty list are falsy. *)
Definition truthy_list {A} (l : option (list A)) : bool :=
  match l with
  | Some (_ :: _) => true
  | _ => false
  end.

(** [x or d] for an optional integer: [None] and [0] are falsy. *)
Definition int_or (x : option Z) (d : option Z) : option Z :=
  match x with
  | Some v => if v =? 0 then d else Some v
  | None => d
  end.

(** [str(n)] for an integer. *)
Definition str_of_Z (z : Z) : string := NilZero.string_of_int (Z.to_int z).

(** [len(l)] rendered by an f-string. *)
Definition str_of_len {A} (l : list A) : string := str_of_Z (Z.of_nat (List.length l)).

(** [list.pop()]: the last element and the list without it. *)
Definition pop {A} (l : list A) : option (A * list A) :=
  match rev l with
  | [] => None
  | x :: r => Some (x, rev r)
  end.

(** [needle in haystack] for strings, as a proposition. *)
Definition contains (needle haystack : string) : Prop :=
  exists pre post, haystack = pre +++ needle +++ post.

(* ================================================================== *)
(** * The pendulum model *)

Module Pendulum.

Definition US_PER_SECOND : Z := 1000000.
Definition SECONDS_PER_DAY : Z := 86400.
Definition US_PER_DAY : Z := SECONDS_PER_DAY * US_PER_SECOND.

(** A resolved time zone, as the zone database has it: its name, the
    offset east of UTC (in seconds) it starts with, and its transitions
    in ascending order, each the instant (in seconds since the epoch)
    from which another offset holds, with that offset. A zone without
    daylight saving has no transition. *)
Record Timezone : Type := mkTimezone {
  tz_name : string;
  first_offset : Z;
  transitions : list (Z * Z)
}.

(** A zone of one offset: [UTC], or the offset written in a text. *)
Definition fixed_timezone (name : string) (offset : Z) : Timezone :=
  mkTimezone name offset [].

Definition UTC : Timezone := fixed_timezone "UTC" 0.

(** The offset in force after the transitions that have [passed], where
    [passed t before after] tells whether the transition at [t] from the
    offset [before] to the offset [after] lies behind. *)
Fixpoint offset_after (passed : Z -> Z -> Z -> bool) (current : Z)
  (l : list (Z * Z)) : Z :=
  match l with
  | [] => current
  | (t, after) :: l' =>
      if passed t current after then offset_after passed after l' else current
  end.

(** The offset of a zone at an instant (in microseconds). *)
Definition utcoffset_at (z : Timezone) (i : Z) : Z :=
  offset_after (fun t _ _ => t * US_PER_SECOND <=? i)
    (first_offset z) (transitions z).

(** The offset of a zone at a wall-clock time (in microseconds). Around
    a transition a wall-clock time occurs twice or not at all: with
    [fold] the transition counts as passed from the earlier of its two
    wall-clock readings on, without it from the later one. *)
Definition utcoffset_local (z : Timezone) (fold : bool) (w : Z) : Z :=
  offset_after
    (fun t before after =>
       (t + (if fold then Z.min before after else Z.max before after))
       * US_PER_SECOND <=? w)
    (first_offset z) (transitions z).

(** The instant a zone gives to a wall-clock time, as pendulum builds a
    date-time from its fields ([fold] set, the default): a time that
    occurs twice is taken as its second occurrence, a time that a
    transition skips is moved on by the length of the gap. A date-time
    of the model does not record which of two occurrences it is; the
    methods that rebuild a date-time from its fields use this rule, and
    agree with pendulum wherever the rebuilt time occurs once. *)
Definition localize (z : Timezone) (w : Z) : Z :=
  let before := utcoffset_local z false w in
  let after := utcoffset_local z true w in
  if before <? after then
    let w' := w + (after - before) * US_PER_SECOND in
    w' - utcoffset_local z true w' * US_PER_SECOND
  else w - after * US_PER_SECOND.

(** An aware date-time: the instant, in microseconds since
    1970-01-01T00:00:00Z, and the zone it is displayed in. *)
Record DateTime : Type := mkDateTime { instant : Z; tz : Timezone }.

(** Wall-clock microseconds since 1970-01-01T00:00:00 local time. *)
Definition wall (d : DateTime) : Z :=
  instant d + utcoffset_at (tz d) (instant d) * US_PER_SECOND.

(** The date-time a zone shows as the wall-clock time [w]. *)
Definition of_wall (w : Z) (z : Timezone) : DateTime :=
  mkDateTime (localize z w) z.

(** [pendulum.from_timestamp(ts, tz=UTC)] *)
Definition from_timestamp (ts : Z) : DateTime :=
  mkDateTime (ts * US_PER_SECOND) UTC.

(** [dt.in_timezone(tz)] for a resolved zone: same instant, other
    display zone. *)
Definition in_tz (d : DateTime) (z : Timezone) : DateTime :=
  mkDateTime (instant d) z.

(** [dt.start_of('day')]: the wall clock is set to 00:00:00.000000. *)
Definition start_of_day (d : DateTime) : DateTime :=
  of_wall (wall d - wall d mod US_PER_DAY) (tz d).

(** [dt.end_of('day')]: the wall clock is set to 23:59:59.999999. *)
Definition end_of_day (d : DateTime) : DateTime :=
  of_wall (wall d - wall d mod US_PER_DAY + (US_PER_DAY - 1)) (tz d).

(** [dt.int_timestamp]: whole seconds since the epoch, rounded down. *)
Definition int_timestamp (d : DateTime) : Z := instant d / US_PER_SECOND.

(** The quotient [a / b] of two integers, [0 <= a] and [0 < b], rounded
    to the nearest integer, a tie going to the even one. *)
Definition round_half_even (a b : Z) : Z :=
  let q := a / b in
  let r := a mod b in
  if 2 * r <? b then q
  else if b <? 2 * r then q + 1
  else if Z.even q then q else q + 1.

(** [int(us / 10**6)] for [0 <= us]: the quotient is rounded to the
    nearest double (53 significant bits, a tie going to the even one),
    which is then truncated. With [e] the exponent of the quotient, the
    doubles around it are the multiples of [2 ^ (e - 52)]. *)
Definition truncated_seconds (us : Z) : Z :=
  if us <? US_PER_SECOND then 0
  else
    let e := Z.log2 (us / US_PER_SECOND) in
    if e <=? 52 then
      round_half_even (us * 2 ^ (52 - e)) US_PER_SECOND / 2 ^ (52 - e)
    else
      round_half_even us (US_PER_SECOND * 2 ^ (e - 52)) * 2 ^ (e - 52).

(** [int(dt.timestamp())]: [timestamp()] is the float nearest to the
    seconds since the epoch, [int] truncates it towards zero. *)
Definition int_of_timestamp (d : DateTime) : Z :=
  Z.sgn (instant d) * truncated_seconds (Z.abs (instant d)).

(** Proleptic Gregorian calendar: day number (0 = 1970-01-01) of a civil
    date, and back. Months are counted from March inside an era of 400
    years. *)
Definition days_from_civil (y m d : Z) : Z :=
  let y' := if m <=? 2 then y - 1 else y in
  let era := y' / 400 in
  let yoe := y' - era * 400 in
  let mp := (m + 9) mod 12 in
  let doy := (153 * mp + 2) / 5 + d - 1 in
  let doe := yoe * 365 + yoe / 4 - yoe / 100 + doy in
  era * 146097 + doe - 719468.

Definition civil_from_days (n : Z) : Z * Z * Z :=
  let z := n + 719468 in
  let era := z / 146097 in
  let doe := z - era * 146097 in
  let yoe := (doe - doe / 1460 + doe / 36524 - doe / 146096) / 365 in
  let doy := doe - (365 * yoe + yoe / 4 - yoe / 100) in
  let mp := (5 * doy + 2) / 153 in
  let d := doy - (153 * mp + 2) / 5 + 1 in
  let m := if mp <? 10 then mp + 3 else mp - 9 in
  let y := yoe + era * 400 in
  (if m <=? 2 then y + 1 else y, m, d).

Definition is_leap (y : Z) : bool :=
  ((y mod 4 =? 0) && negb (y mod 100 =? 0)) || (y mod 400 =? 0).

Definition days_in_month (y m : Z) : Z :=
  if m =? 2 then (if is_leap y then 29 else 28)
  else if (m =? 4) || (m =? 6) || (m =? 9) || (m =? 11) then 30
  else 31.

(** [dt.add(years=n)]: the year of the wall-clock date moves by [n], the
    day is clamped to the length of the month, the time of day stays. *)
Definition add_years (n : Z) (d : DateTime) : DateTime :=
  let w := wall d in
  let '(y, m, dd) := civil_from_days (w / US_PER_DAY) in
  let y' := y + n in
  let dd' := Z.min dd (days_in_month y' m) in
  of_wall (days_from_civil y' m dd' * US_PER_DAY + w mod US_PER_DAY) (tz d).

(** [dt.add(days=n)], [dt.add(weeks=n)]: the wall-clock date moves by
    [n] days, the time of day stays; the instant is the one the zone
    gives to the new wall-clock time. *)
Definition add_days (n : Z) (d : DateTime) : DateTime :=
  of_wall (wall d + n * US_PER_DAY) (tz d).
Definition add_weeks (n : Z) (d : DateTime) : DateTime := add_days (7 * n) d.

(** [dt.add(minutes=n)]: the instant moves by [n] minutes. *)
Definition add_minutes (n : Z) (d : DateTime) : DateTime :=
  mkDateTime (instant d + n * 60 * US_PER_SECOND) (tz d).

(** [dt.subtract(years=n)], [dt.subtract(days=n)] *)
Definition subtract_years (n : Z) (d : DateTime) : DateTime := add_years (- n) d.
Definition subtract_days (n : Z) (d : DateTime) : DateTime := add_days (- n) d.

(** Decimal rendering of a non-negative number on at least [width]
    digits. *)
Definition zero_pad (width : nat) (z : Z) : string :=
  let s := str_of_Z z in
  String.concat EmptyString (repeat "0" (width - String.length s)) +++ s.

(** [dt.to_date_string()]: YYYY-MM-DD of the wall-clock date. *)
Definition to_date_string (d : DateTime) : string :=
  let '(y, m, dd) := civil_from_days (wall d / US_PER_DAY) in
  zero_pad 4 y +++ "-" +++ zero_pad 2 m +++ "-" +++ zero_pad 2 dd.

End Pendulum.

(* ================================================================== *)
(** * External libraries *)

(** What [pendulum.parse] reads from a text before a zone is applied: a
    wall-clock time without offset, an instant with the offset written
    in the text, or a length of time: a text such as PT0S gives a
    [Duration], two date-times separated by a stroke give an interval,
    which is a [Duration] as well. [class_name] is the class of the
    object, [zero] tells whether its length is zero. *)
Inductive Parsed : Type :=
| Naive (wall_us : Z)
| Aware (instant_us : Z) (offset : Z)
| Elapsed (class_name : string) (zero : bool).

(** What [pendulum.parse] returns: a [DateTime], or a [Duration]. *)
Inductive ParsedValue : Type :=
| ADateTime (d : Pendulum.DateTime)
| ADuration (class_name : string) (zero : bool).

(** [if not v:] for a value returned by [pendulum.parse]: a date-time is
    truthy, a duration is falsy when it is zero. *)
Definition truthy_parsed (v : ParsedValue) : bool :=
  match v with
  | ADateTime _ => true
  | ADuration _ zero => negb zero
  end.

(** A method of [DateTime] ([start_of], [end_of], [add]) called on what
    [pendulum.parse] returned: a duration has none of them. *)
Definition datetime_of (v : ParsedValue) : Result Pendulum.DateTime :=
  match v with
  | ADateTime d => Ok d
  | ADuration class_name _ => Raise (AttributeError class_name)
  end.

(** The library functions [utils.py] calls and this development does not
    look into.
    - [timezone name]: the zone database, [None] for an unknown name;
    - [local_timezone]: the zone of the host, used for a missing name;
    - [iso8601 text]: the text parser behind [pendulum.parse], [None] when
      it raises [ParserError]; the texts that are read against the clock,
      the word now and a time of day without date, are not modelled;
    - [get_text html]:
      [BeautifulSoup(html, 'html.parser').get_text(separator=' ', strip=True)];
    - [partial_ratio a b]: [fuzz.partial_ratio];
    - [lower s]: [str.lower]. *)
Class Libraries : Type := {
  timezone : string -> option Pendulum.Timezone;
  local_timezone : Pendulum.Timezone;
  iso8601 : string -> option Parsed;
  get_text : string -> string;
  partial_ratio : string -> string -> Z;
  lower : string -> string
}.

(* ================================================================== *)
(** * The models of the Nylas SDK *)

Inductive When : Type :=
| Time (time : Z) (timezone : option string)
| Timespan (start_time end_time : Z) (start_timezone end_timezone : option string)
| Date (date : string)
| Datespan (start_date end_date : string)
| NotWhen (v : PyObject).

Inductive CreateWhen : Type :=
| CreateDate (date : string)
| CreateTimespan (start_time end_time : Z) (start_timezone end_timezone : string).

(** The [when] of a [CreateEventRequest]: built for the request by
    [create_event], or the [when] object of a stored event handed over
    as it is by [undo_last_action]. *)
Inductive RequestWhen : Type :=
| NewWhen (w : CreateWhen)
| SameWhen (w : When).

Module Participant.
Record t : Type := mk {
  email : string;
  name : option string;
  status : option string
}.
End Participant.

(** A participant of a [CreateEventRequest]: [CreateParticipant(email=...)]
    or a participant object of a stored event. *)
Inductive RequestParticipant : Type :=
| CreateParticipant (email : string)
| SameParticipant (p : Participant.t).

Definition Metadata : Type := list (string * string).

Module NylasEvent.
Record t : Type := mk {
  id : string;
  grant_id : string;
  calendar_id : string;
  title : option string;
  when : When;
  location : option string;
  description : option string;
  participants : option (list Participant.t);
  metadata : option Metadata;
  visibility : option string;
  busy : option bool;
  capacity : option Z;
  hide_participants : option bool;
  status : option string;
  created_at : option Z;
  updated_at : option Z
}.
End NylasEvent.

Module CreateEventRequest.
Record t : Type := mk {
  title : option string;
  when : RequestWhen;
  location : option string;
  description : option string;
  participants : option (list RequestParticipant);
  metadata : option Metadata;
  visibility : option string;
  busy : option bool;
  capacity : option Z;
  hide_participants : option bool
}.
End CreateEventRequest.

Module ListEventQueryParams.
Record t : Type := mk {
  calendar_id : string;
  start : Z;
  end_ : option Z;
  limit : option Z;
  expand_recurring : option bool;
  page_token : option string
}.
End ListEventQueryParams.

(* ================================================================== *)
(** * The models of [utils.py] *)

Module EventData.
Record t : Type := mk {
  title : string;
  when : string;
  duration_minutes : Z;
  location : option string;
  description : option string;
  attendees : option (list string);
  metadata : option Metadata;
  visibility : option string;
  busy : option bool;
  capacity : option Z;
  hide_participants : option bool;
  all_day : bool
}.
End EventData.

Module Event.
Record t : Type := mk {
  id : string;
  title : string;
  start_time : option Pendulum.DateTime;
  end_time : option Pendulum.DateTime;
  all_day : bool;
  location : option string;
  description : option string;
  attendees : option (list string);
  metadata : option Metadata
}.
End Event.

Module ActionHistoryEntry.
Record t : Type := mk {
  action : string;
  event_id : string;
  event_data : option NylasEvent.t
}.
End ActionHistoryEntry.

(* ================================================================== *)
(** * The pure functions of [utils.py] *)

Section Pure.
Context {L : Libraries}.

(** [pendulum.timezone(name)], raising on an unknown name. *)
Definition resolve (name : string) : Result Pendulum.Timezone :=
  match timezone name with
  | Some z => Ok z
  | None => Raise (InvalidTimezone name)
  end.

(** [dt.in_timezone(tz)]: a missing name stands for the local zone. *)
Definition in_timezone (d : Pendulum.DateTime) (name : option string)
  : Result Pendulum.DateTime :=
  match name with
  | None => Ok (Pendulum.in_tz d local_timezone)
  | Some n => z <~ resolve n ;; Ok (Pendulum.in_tz d z)
  end.

(** [pendulum.parse(text, tz=name)]: the zone is only looked up when
    the text is a date-time that carries no offset of its own. *)
Definition pendulum_parse_value (text : string) (name : string)
  : Result ParsedValue :=
  match iso8601 text with
  | None => Raise (ParserError text)
  | Some (Naive w) => z <~ resolve name ;; Ok (ADateTime (Pendulum.of_wall w z))
  | Some (Aware i off) =>
      Ok (ADateTime
            (Pendulum.mkDateTime i (Pendulum.fixed_timezone EmptyString off)))
  | Some (Elapsed class_name zero) => Ok (ADuration class_name zero)
  end.

(** [pendulum.parse(text, tz=name)] where the result is at once used as
    a date-time. *)
Definition pendulum_parse (text : string) (name : string)
  : Result Pendulum.DateTime :=
  v <~ pendulum_parse_value text name ;; datetime_of v.

Definition html_to_plain_text (html_content : option string) : option string :=
  if truthy_str html_content then
    match html_content with
    | Some h => Some (get_text h)
    | None => None
    end
  else None.

Definition parse_when (when_data : When) (user_timezone : string)
  : Result (option Pendulum.DateTime * option Pendulum.DateTime * bool) :=
  match when_data with
  | Time time_ts timezone =>
      t <~ in_timezone (Pendulum.from_timestamp time_ts) timezone ;;
      Ok (Some t, Some t, false)
  | Timespan start_ts end_ts start_timezone end_timezone =>
      start_time <~ in_timezone (Pendulum.from_timestamp start_ts) start_timezone ;;
      end_time <~ in_timezone (Pendulum.from_timestamp end_ts) end_timezone ;;
      Ok (Some start_time, Some end_time, false)
  | Date date_str =>
      d <~ pendulum_parse date_str user_timezone ;;
      let start_time := Pendulum.start_of_day d in
      let end_time := Pendulum.end_of_day start_time in
      Ok (Some start_time, Some end_time, true)
  | Datespan start_date_str end_date_str =>
      s <~ pendulum_parse start_date_str user_timezone ;;
      let start_time := Pendulum.start_of_day s in
      e <~ pendulum_parse end_date_str user_timezone ;;
      let end_time := Pendulum.end_of_day e in
      Ok (Some start_time, Some end_time, true)
  | NotWhen _ => Raise (ValueError "Unknown when_data type.")
  end.

(** Pydantic validation of the required field [title: str]. *)
Definition required_str (field : string) (v : option string) : Result string :=
  match v with
  | Some s => Ok s
  | None => Raise (ValidationError field)
  end.

Definition parse_nylas_event (event : NylasEvent.t) (user_timezone : string)
  : Result Event.t :=
  ' (start_time, end_time, all_day) <~
      parse_when (NylasEvent.when event) user_timezone ;;
  let attendees :=
    if truthy_list (NylasEvent.participants event) then
      match NylasEvent.participants event with
      | Some ps => Some (map Participant.email ps)
      | None => None
      end
    else None in
  title <~ required_str "title" (NylasEvent.title event) ;;
  Ok (Event.mk
        (NylasEvent.id event)
        title
        start_time
        end_time
        all_day
        (NylasEvent.location event)
        (html_to_plain_text (NylasEvent.description event))
        attendees
        (if truthy_list (NylasEvent.metadata event)
         then NylasEvent.metadata event else None)).

(** [list.sort(key=..., reverse=True)]: a stable sort by descending
    key. An element is placed before the first element of the sorted
    rest whose key is not larger, so equal keys keep their order. *)
Fixpoint insert_reverse {A} (key : A -> Z) (x : A) (l : list A) : list A :=
  match l with
  | [] => [x]
  | y :: l' =>
      if key y <=? key x then x :: y :: l'
      else y :: insert_reverse key x l'
  end.

Fixpoint sort_reverse {A} (key : A -> Z) (l : list A) : list A :=
  match l with
  | [] => []
  | x :: l' => insert_reverse key x (sort_reverse key l')
  end.

(** The similarity of one event with the query, as both the loop and
    the sort key compute it. *)
Definition similarity (search_query : string) (event : Event.t) : Z :=
  partial_ratio (lower search_query) (lower (Event.title event)).

Definition fuzzy_search_events (events : list Event.t) (search_query : string)
  (threshold : Z) : list Event.t :=
  let matching_events :=
    filter (fun event => threshold <=? similarity search_query event) events in
  sort_reverse (similarity search_query) matching_events.

End Pure.

(* ================================================================== *)
(** * The calendar API collaborator *)

(** One request sent through [self.nylas.events], with its arguments. *)
Inductive Call : Type :=
| CallFind (grant_id event_id calendar_id : string)
| CallDestroy (grant_id event_id calendar_id : string)
| CallCreate (grant_id : string) (request_body : CreateEventRequest.t)
    (calendar_id notify_participants : string)
| CallList (grant_id : string) (query_params : ListEventQueryParams.t).

(** The remote service, as a transition system on its own state: each
    operation answers (or raises) and leaves a new state. A [list]
    answer is [response.data] with [response.next_cursor]. *)
Class Collaborator (World : Type) : Type := {
  events_find : string -> string -> string -> World -> Result NylasEvent.t * World;
  events_destroy : string -> string -> string -> World -> Result unit * World;
  events_create :
    string -> CreateEventRequest.t -> string -> string -> World ->
    Result NylasEvent.t * World;
  events_list :
    string -> ListEventQueryParams.t -> World ->
    Result (list NylasEvent.t * option string) * World
}.

(** How the service reads back what a request carried. *)
Definition read_when (w : RequestWhen) : When :=
  match w with
  | NewWhen (CreateDate d) => Date d
  | NewWhen (CreateTimespan s e zs ze) => Timespan s e (Some zs) (Some ze)
  | SameWhen w' => w'
  end.

Definition read_participant (p : RequestParticipant) : Participant.t :=
  match p with
  | CreateParticipant e => Participant.mk e None None
  | SameParticipant p' => p'
  end.

Definition emails_of (ps : option (list Participant.t)) : list string :=
  match ps with
  | Some l => map Participant.email l
  | None => []
  end.

Definition request_emails (ps : option (list RequestParticipant)) : list string :=
  match ps with
  | Some l => map (fun p => Participant.email (read_participant p)) l
  | None => []
  end.

(** The event the service answers a create request with carries the
    request's title, timing and location, and the same participants in
    some order. *)
Definition echoes (req : CreateEventRequest.t) (ev : NylasEvent.t) : Prop :=
  NylasEvent.title ev = CreateEventRequest.title req /\
  NylasEvent.when ev = read_when (CreateEventRequest.when req) /\
  NylasEvent.location ev = CreateEventRequest.location req /\
  (forall a, In a (emails_of (NylasEvent.participants ev)) <->
             In a (request_emails (CreateEventRequest.participants req))).

(* ================================================================== *)
(** * The scheduler *)

(** One [logger.error] record: the text before the colon and the
    exception it reports. *)
Record LogRecord : Type := mkLog { context : string; exc : Exn }.

Module NylasScheduler.
(** The fields of the object ([nylas] is the remote service reached
    through the client), and the environment of a run: the clock read
    by [pendulum.now], the requests sent so far, the error log and the
    standard output. *)
Set Implicit Arguments.
Record t (World : Type) : Type := mk {
  nylas : World;
  grant_id : string;
  user_timezone : string;
  calendar_id : string;
  action_history : list ActionHistoryEntry.t;
  clock : Z;
  calls : list Call;
  errors : list LogRecord;
  stdout : list string
}.
Unset Implicit Arguments.
End NylasScheduler.

Section Scheduler.
Context {L : Libraries} {World : Type} {C : Collaborator World}.

Local Abbreviation State := (NylasScheduler.t World).
Definition M (A : Type) : Type := State -> Result A * State.

Definition ret {A} (a : A) : M A := fun self => (Ok a, self).
Definition bind {A B} (m : M A) (k : A -> M B) : M B :=
  fun self =>
    match m self with
    | (Ok a, self') => k a self'
    | (Raise e, self') => (Raise e, self')
    end.
Definition lift {A} (r : Result A) : M A := fun self => (r, self).

Notation "x <- m ;; k" := (bind m (fun x => k))
  (at level 100, m at next level, right associativity).
Notation "m ;;; k" := (bind m (fun _ => k))
  (at level 100, right associativity).

Definition with_history (h : list ActionHistoryEntry.t) (self : State) : State :=
  NylasScheduler.mk (NylasScheduler.nylas self) (NylasScheduler.grant_id self)
    (NylasScheduler.user_timezone self) (NylasScheduler.calendar_id self)
    h (NylasScheduler.clock self) (NylasScheduler.calls self)
    (NylasScheduler.errors self) (NylasScheduler.stdout self).

(** The state after a request: the service has moved and the request is
    on record. *)
Definition sent (c : Call) (w : World) (self : State) : State :=
  NylasScheduler.mk w (NylasScheduler.grant_id self)
    (NylasScheduler.user_timezone self) (NylasScheduler.calendar_id self)
    (NylasScheduler.action_history self) (NylasScheduler.clock self)
    (NylasScheduler.calls self ++ [c])
    (NylasScheduler.errors self) (NylasScheduler.stdout self).

Definition logger_error (ctx : string) (e : Exn) (self : State) : State :=
  NylasScheduler.mk (NylasScheduler.nylas self) (NylasScheduler.grant_id self)
    (NylasScheduler.user_timezone self) (NylasScheduler.calendar_id self)
    (NylasScheduler.action_history self) (NylasScheduler.clock self)
    (NylasScheduler.calls self)
    (NylasScheduler.errors self ++ [mkLog ctx e]) (NylasScheduler.stdout self).

Definition print (line : string) (self : State) : State :=
  NylasScheduler.mk (NylasScheduler.nylas self) (NylasScheduler.grant_id self)
    (NylasScheduler.user_timezone self) (NylasScheduler.calendar_id self)
    (NylasScheduler.action_history self) (NylasScheduler.clock self)
    (NylasScheduler.calls self)
    (NylasScheduler.errors self) (NylasScheduler.stdout self ++ [line]).

(** [self.action_history.append(entry)] *)
Definition history_append (entry : ActionHistoryEntry.t) : M unit :=
  fun self =>
    (Ok tt, with_history (NylasScheduler.action_history self ++ [entry]) self).

(** [self.nylas.events.find / destroy / create / list], with the grant
    and the calendar of the scheduler. *)
Definition nylas_events_find (event_id : string) : M NylasEvent.t :=
  fun self =>
    let g := NylasScheduler.grant_id self in
    let c := NylasScheduler.calendar_id self in
    let '(r, w) := events_find g event_id c (NylasScheduler.nylas self) in
    (r, sent (CallFind g event_id c) w self).

Definition nylas_events_destroy (event_id : string) : M unit :=
  fun self =>
    let g := NylasScheduler.grant_id self in
    let c := NylasScheduler.calendar_id self in
    let '(r, w) := events_destroy g event_id c (NylasScheduler.nylas self) in
    (r, sent (CallDestroy g event_id c) w self).

Definition nylas_events_create (request_body : CreateEventRequest.t)
  : M NylasEvent.t :=
  fun self =>
    let g := NylasScheduler.grant_id self in
    let c := NylasScheduler.calendar_id self in
    let '(r, w) :=
      events_create g request_body c "false" (NylasScheduler.nylas self) in
    (r, sent (CallCreate g request_body c "false") w self).

Definition nylas_events_list (query_params : ListEventQueryParams.t)
  : M (list NylasEvent.t * option string) :=
  fun self =>
    let g := NylasScheduler.grant_id self in
    let '(r, w) := events_list g query_params (NylasScheduler.nylas self) in
    (r, sent (CallList g query_params) w self).

(** The four [except] clauses every method ends with: the exception
    is logged under a text chosen by its class and raised again. *)
Definition by_class (api oauth timeout other : string) (e : Exn) : string :=
  match e with
  | NylasApiError _ => api
  | NylasOAuthError _ => oauth
  | NylasSdkTimeoutError _ => timeout
  | _ => other
  end.

Definition try_except {A} (label : Exn -> string) (body : M A) : M A :=
  fun self =>
    match body self with
    | (Raise e, self') => (Raise e, logger_error (label e) e self')
    | ok => ok
    end.

(** [pendulum.now(tz)] *)
Definition now (name : string) : M Pendulum.DateTime :=
  fun self =>
    (z <~ resolve name ;; Ok (Pendulum.mkDateTime (NylasScheduler.clock self) z),
     self).

(** [pendulum.now('UTC')] *)
Definition now_utc (self : State) : Pendulum.DateTime :=
  Pendulum.mkDateTime (NylasScheduler.clock self) Pendulum.UTC.

(** The outbound translation of [create_event]: from the parse of
    [when] to the finished [CreateEventRequest]. A [when] that parses to
    a duration of length zero is falsy and takes the [ValueError]
    branch; another duration fails at [add]. *)
Definition create_event_request (event_data : EventData.t) (user_timezone : string)
  : Result CreateEventRequest.t :=
  parsed_datetime <~
    pendulum_parse_value (EventData.when event_data) user_timezone ;;
  if negb (truthy_parsed parsed_datetime)
  then Raise (ValueError "Could not parse 'when' field.")
  else
    start_time <~ datetime_of parsed_datetime ;;
    let end_time :=
      Pendulum.add_minutes (EventData.duration_minutes event_data) start_time in
    let when :=
      if EventData.all_day event_data then
        NewWhen (CreateDate (Pendulum.to_date_string start_time))
      else
        NewWhen (CreateTimespan
                   (Pendulum.int_of_timestamp start_time)
                   (Pendulum.int_of_timestamp end_time)
                   user_timezone user_timezone) in
    let participants :=
      if truthy_list (EventData.attendees event_data) then
        match EventData.attendees event_data with
        | Some l => Some (map CreateParticipant l)
        | None => None
        end
      else None in
    Ok (CreateEventRequest.mk
          (Some (EventData.title event_data))
          when
          (EventData.location event_data)
          (EventData.description event_data)
          participants
          (EventData.metadata event_data)
          (EventData.visibility event_data)
          (EventData.busy event_data)
          (EventData.capacity event_data)
          (EventData.hide_participants event_data)).

Definition create_event (event_data : EventData.t) : M Event.t :=
  try_except
    (by_class "Nylas API error while creating event"
              "Nylas OAuth error while creating event"
              "Timeout error while creating event"
              "Unexpected error while creating event")
    (fun self =>
       (create_event_request <-
          lift (create_event_request event_data (NylasScheduler.user_timezone self)) ;;
        response <- nylas_events_create create_event_request ;;
        history_append
          (ActionHistoryEntry.mk "create" (NylasEvent.id response) None) ;;;
        lift (parse_nylas_event response (NylasScheduler.user_timezone self)))
         self).

Definition delete_event (event_id : string) : M unit :=
  try_except
    (by_class "Nylas API error while deleting event"
              "Nylas OAuth error while deleting event"
              "Timeout error while deleting event"
              "Unexpected error while deleting event")
    (event <- nylas_events_find event_id ;;
     nylas_events_destroy event_id ;;;
     history_append (ActionHistoryEntry.mk "delete" event_id (Some event))).

(** [undo_last_action]: the request rebuilt from a snapshot has the ten
    writable fields, without identifier, grant, calendar, status and
    time stamps. *)
Definition undo_last_action : M string :=
  fun self =>
    match pop (NylasScheduler.action_history self) with
    | None => (Ok "No actions to undo.", self)
    | Some (last_action, rest) =>
        let self := with_history rest self in
        let action := ActionHistoryEntry.action last_action in
        let event_id := ActionHistoryEntry.event_id last_action in
        if String.eqb action "create" then
          (nylas_events_destroy event_id ;;;
           ret ("Creation of event " +++ event_id +++ " has been undone.")) self
        else if String.eqb action "delete" then
          match ActionHistoryEntry.event_data last_action with
          | None => (Ok "No event data to recreate the event.", self)
          | Some event =>
              let create_event_request :=
                CreateEventRequest.mk
                  (NylasEvent.title event)
                  (SameWhen (NylasEvent.when event))
                  (NylasEvent.location event)
                  (NylasEvent.description event)
                  (option_map (map SameParticipant) (NylasEvent.participants event))
                  (NylasEvent.metadata event)
                  (NylasEvent.visibility event)
                  (NylasEvent.busy event)
                  (NylasEvent.capacity event)
                  (NylasEvent.hide_participants event) in
              (recreated_event <- nylas_events_create create_event_request ;;
               ret ("Deletion of event " +++ event_id +++
                    " has been undone. New event ID is " +++
                    NylasEvent.id recreated_event +++ ".")) self
          end
        else (Ok "Unknown action.", self)
    end.

Definition get_events (start : Z) (end_ : option Z) (limit : option Z)
  : M (list Event.t) :=
  try_except
    (by_class "Nylas API error while fetching events"
              "Nylas OAuth error while fetching events"
              "Timeout error while fetching events"
              "Unexpected error while fetching events")
    (fun self =>
       (let query_params :=
          ListEventQueryParams.mk
            (NylasScheduler.calendar_id self)
            start
            (int_or end_ None)
            (int_or limit (Some 100))
            (Some true)
            None in
        response <- nylas_events_list query_params ;;
        let events := fst response in
        lift (mapR (fun event =>
                      parse_nylas_event event (NylasScheduler.user_timezone self))
                   events))
         self).

Definition get_todays_events (reference_date : option Pendulum.DateTime)
  : M (list Event.t) :=
  fun self =>
    (reference_date <-
       match reference_date with
       | None => now (NylasScheduler.user_timezone self)
       | Some d => ret d
       end ;;
     let today := Pendulum.start_of_day reference_date in
     let tomorrow := Pendulum.end_of_day reference_date in
     get_events (Pendulum.int_timestamp today)
                (Some (Pendulum.int_timestamp tomorrow)) None) self.

Definition get_next_three_days_events : M (list Event.t) :=
  fun self =>
    (n <- now (NylasScheduler.user_timezone self) ;;
     let today := Pendulum.start_of_day n in
     get_events (Pendulum.int_timestamp today)
                (Some (Pendulum.int_timestamp (Pendulum.add_days 3 today))) None)
      self.

Definition get_next_week_events : M (list Event.t) :=
  fun self =>
    (n <- now (NylasScheduler.user_timezone self) ;;
     let today := Pendulum.start_of_day n in
     get_events (Pendulum.int_timestamp today)
                (Some (Pendulum.int_timestamp (Pendulum.add_weeks 1 today))) None)
      self.

(** The query of one page of [get_all_events]; only a truthy token is
    put into it. *)
Definition page_query (calendar_id : string) (start end_ : Z)
  (page_token : option string) : ListEventQueryParams.t :=
  if truthy_str page_token then
    ListEventQueryParams.mk calendar_id start (Some end_) (Some 200) None page_token
  else
    ListEventQueryParams.mk calendar_id start (Some end_) (Some 200) None None.

(** One turn of the [while True] loop, inside its own [try]: fetch a
    page, parse its events, extend the accumulator. The answer is the new
    accumulator and the cursor of the response. *)
Definition fetch_page (start end_ : Z) (page_token : option string)
  (all_events : list Event.t) : M (list Event.t * option string) :=
  try_except
    (by_class "Nylas API error while fetching events page"
              "Nylas OAuth error while fetching events page"
              "Timeout error while fetching events page"
              "Unexpected error while fetching events page")
    (fun self =>
       (response <-
          nylas_events_list
            (page_query (NylasScheduler.calendar_id self) start end_ page_token) ;;
        parsed <-
          lift (mapR (fun event =>
                        parse_nylas_event event (NylasScheduler.user_timezone self))
                     (fst response)) ;;
        ret (all_events ++ parsed, snd response)) self).

(** The loop itself. [fuel] bounds the number of turns; [None] means the
    bound was reached while the service was still handing out cursors. *)
Fixpoint fetch_pages (fuel : nat) (start end_ : Z) (page_token : option string)
  (all_events : list Event.t) (self : State)
  : option (Result (list Event.t) * State) :=
  match fuel with
  | O => None
  | S fuel' =>
      match fetch_page start end_ page_token all_events self with
      | (Raise e, self') => Some (Raise e, self')
      | (Ok (all_events', next_cursor), self') =>
          if truthy_str next_cursor
          then fetch_pages fuel' start end_ next_cursor all_events' self'
          else Some (Ok all_events', self')
      end
  end.

(** [if end is None: end = ...]: the end of the window when the caller
    gives none. *)
Definition default_end (start : Z) (end_ : option Z) : Z :=
  match end_ with
  | None =>
      Pendulum.int_timestamp (Pendulum.add_years 1 (Pendulum.from_timestamp start))
  | Some e => e
  end.

(** The outer [try] of [get_all_events] around the finished loop. *)
Definition reraised {A} (r : Result A * State) : M A :=
  try_except
    (by_class "Nylas API error in get_all_events"
              "Nylas OAuth error in get_all_events"
              "Timeout error in get_all_events"
              "Error in get_all_events")
    (fun _ => r).

Definition get_all_events (fuel : nat) (start : Z) (end_ : option Z) (self : State)
  : option (Result (list Event.t) * State) :=
  let end_ := default_end start end_ in
  match fetch_pages fuel start end_ None [] self with
  | None => None
  | Some r => Some (reraised r self)
  end.

(** The [for] loop of [cleanup_calendar]: a deletion that raises is
    logged and the loop goes on. *)
Fixpoint delete_each (events_to_delete : list Event.t) : M unit :=
  match events_to_delete with
  | [] => ret tt
  | event :: rest =>
      (fun self =>
         match delete_event (Event.id event) self with
         | (Ok _, self') =>
             (Ok tt,
              print ("Deleted event: " +++ Event.title event +++
                     " (ID: " +++ Event.id event +++ ")") self')
         | (Raise e, self') =>
             (Ok tt, logger_error ("Error deleting event " +++ Event.id event) e self')
         end) ;;;
      delete_each rest
  end.

Definition cleanup_calendar (fuel : nat) (days_to_keep : Z) (self : State)
  : option (Result unit * State) :=
  let now := now_utc self in
  let start_date := Pendulum.start_of_day (Pendulum.subtract_years 10 now) in
  let end_date := Pendulum.end_of_day (Pendulum.subtract_days days_to_keep now) in
  match get_all_events fuel (Pendulum.int_timestamp start_date)
          (Some (Pendulum.int_timestamp end_date)) self with
  | None => None
  | Some r =>
      Some (try_except
              (fun _ => "Error during calendar cleanup")
              (events_to_delete <- (fun _ => r) ;;
               delete_each events_to_delete ;;;
               (fun self' =>
                  (Ok tt,
                   print ("Cleanup complete. Deleted " +++
                          str_of_len events_to_delete +++ " events.") self')))
              self)
  end.

(** What a run of [cleanup_calendar] reports: the number printed in the
    closing line is the decimal text between the two fixed parts. *)
Definition cleanup_report (n : nat) : string :=
  "Cleanup complete. Deleted " +++ str_of_Z (Z.of_nat n) +++ " events.".

(** The deletions that went through: each one appended a [delete] entry
    to the history. *)
Definition count_deletions (h : list ActionHistoryEntry.t) : nat :=
  List.length
    (filter (fun e => String.eqb (ActionHistoryEntry.action e) "delete") h).

End Scheduler.

(* ================================================================== *)
(** * A test double of the libraries and of the calendar service

    Concrete instances of [Libraries] and [Collaborator], in the manner
    of the mocked collaborator of the specification's test scenarios.
    They serve to run the methods on concrete inputs. *)

Module Mock.

Definition digit (c : ascii) : option Z :=
  let n := Z.of_nat (nat_of_ascii c) in
  if (48 <=? n) && (n <=? 57) then Some (n - 48) else None.

Fixpoint number_from (acc : Z) (s : string) : option Z :=
  match s with
  | EmptyString => Some acc
  | String c s' =>
      match digit c with
      | Some d => number_from (acc * 10 + d) s'
      | None => None
      end
  end.

(** A non-empty string of decimal digits. *)
Definition number (s : string) : option Z :=
  match s with
  | EmptyString => None
  | _ => number_from 0 s
  end.

(** Texts of the shapes YYYY-MM-DD and YYYY-MM-DDTHH:MM:SS, and the
    durations PT0S and PT1H. *)
Definition iso8601 (text : string) : option Parsed :=
  if String.eqb text "PT0S" then Some (Elapsed "Duration" true)
  else if String.eqb text "PT1H" then Some (Elapsed "Duration" false)
  else
  let field i n := number (substring i n text) in
  let date :=
    match field 0%nat 4%nat, field 5%nat 2%nat, field 8%nat 2%nat with
    | Some y, Some m, Some d =>
        if (1 <=? m) && (m <=? 12) && (1 <=? d) && (d <=? Pendulum.days_in_month y m)
           && String.eqb (substring 4 1 text) "-"
           && String.eqb (substring 7 1 text) "-"
        then Some (Pendulum.days_from_civil y m d)
        else None
    | _, _, _ => None
    end in
  match date with
  | None => None
  | Some days =>
      if Nat.eqb (String.length text) 10 then Some (Naive (days * Pendulum.US_PER_DAY))
      else if Nat.eqb (String.length text) 19 then
        match field 11%nat 2%nat, field 14%nat 2%nat, field 17%nat 2%nat with
        | Some h, Some mi, Some s =>
            if (h <? 24) && (mi <? 60) && (s <? 60)
               && String.eqb (substring 10 1 text) "T"
            then Some (Naive (days * Pendulum.US_PER_DAY
                              + ((h * 60 + mi) * 60 + s) * Pendulum.US_PER_SECOND))
            else None
        | _, _, _ => None
        end
      else None
  end.

(** Three zones. New York and Paris have their daylight saving of 2023:
    from 2023-03-12T07:00Z to 2023-11-05T06:00Z, and from
    2023-03-26T01:00Z to 2023-10-29T01:00Z. *)
Definition America_New_York : Pendulum.Timezone :=
  Pendulum.mkTimezone "America/New_York" (-18000)
    [(1678604400, -14400); (1699164000, -18000)].

Definition Europe_Paris : Pendulum.Timezone :=
  Pendulum.mkTimezone "Europe/Paris" 3600
    [(1679792400, 7200); (1698541200, 3600)].

Definition timezone (name : string) : option Pendulum.Timezone :=
  if String.eqb name "UTC" then Some Pendulum.UTC
  else if String.eqb name "America/New_York" then Some America_New_York
  else if String.eqb name "Europe/Paris" then Some Europe_Paris
  else None.

Definition lower_ascii (c : ascii) : ascii :=
  let n := nat_of_ascii c in
  if (Nat.leb 65 n) && (Nat.leb n 90) then ascii_of_nat (n + 32) else c.

Fixpoint lower (s : string) : string :=
  match s with
  | EmptyString => EmptyString
  | String c s' => String (lower_ascii c) (lower s')
  end.

Fixpoint occurs (c : ascii) (s : string) : bool :=
  match s with
  | EmptyString => false
  | String c' s' => Ascii.eqb c c' || occurs c s'
  end.

Fixpoint count_in (a b : string) : Z :=
  match a with
  | EmptyString => 0
  | String c a' => (if occurs c b then 1 else 0) + count_in a' b
  end.

(** A similarity on the scale 0..100: 100 when the query occurs in the
    title, else the share of the query's characters found in it. *)
Definition partial_ratio (a b : string) : Z :=
  match index 0 a b with
  | Some _ => 100
  | None => 100 * count_in a b / Z.max 1 (Z.of_nat (String.length a))
  end.

Definition libraries : Libraries :=
  Build_Libraries timezone Pendulum.UTC iso8601 (fun html => html) partial_ratio lower.

(** The service: the stored events in listing order, the identifiers
    whose deletion is refused, the counter behind fresh identifiers, the
    largest page the service hands out, and how many more requests it
    answers before timing out ([None]: no limit). *)
Record World : Type := mkWorld {
  stored : list NylasEvent.t;
  refused : list string;
  next_id : Z;
  page_cap : nat;
  budget : option nat
}.

Definition spend (w : World) : option World :=
  match budget w with
  | None => Some w
  | Some O => None
  | Some (S n) => Some (mkWorld (stored w) (refused w) (next_id w) (page_cap w) (Some n))
  end.

Definition with_stored (l : list NylasEvent.t) (w : World) : World :=
  mkWorld l (refused w) (next_id w) (page_cap w) (budget w).

Definition served {A} (w : World) (k : World -> Result A * World) : Result A * World :=
  match spend w with
  | None => (Raise (NylasSdkTimeoutError "https://api.us.nylas.com"), w)
  | Some w' => k w'
  end.

Definition has_id (i : string) (e : NylasEvent.t) : bool :=
  String.eqb (NylasEvent.id e) i.

Definition find_event (g i c : string) (w : World) : Result NylasEvent.t * World :=
  served w (fun w =>
    match List.find (has_id i) (stored w) with
    | Some e => (Ok e, w)
    | None => (Raise (NylasApiError "event not found"), w)
    end).

Definition destroy_event (g i c : string) (w : World) : Result unit * World :=
  served w (fun w =>
    if existsb (String.eqb i) (refused w)
    then (Raise (NylasApiError "deletion refused"), w)
    else if existsb (has_id i) (stored w)
    then (Ok tt, with_stored (filter (fun e => negb (has_id i e)) (stored w)) w)
    else (Raise (NylasApiError "event not found"), w)).

Definition create_stored (g : string) (req : CreateEventRequest.t) (c notify : string)
  (w : World) : Result NylasEvent.t * World :=
  served w (fun w =>
    let e :=
      NylasEvent.mk ("evt-" +++ str_of_Z (next_id w)) g c
        (CreateEventRequest.title req)
        (read_when (CreateEventRequest.when req))
        (CreateEventRequest.location req)
        (CreateEventRequest.description req)
        (option_map (map read_participant) (CreateEventRequest.participants req))
        (CreateEventRequest.metadata req)
        (CreateEventRequest.visibility req)
        (CreateEventRequest.busy req)
        (CreateEventRequest.capacity req)
        (CreateEventRequest.hide_participants req)
        (Some "confirmed") None None in
    (Ok e, mkWorld (stored w ++ [e]) (refused w) (next_id w + 1) (page_cap w) (budget w))).

Definition date_start (text : string) : option Z :=
  match iso8601 text with
  | Some (Naive us) => Some (us / Pendulum.US_PER_SECOND)
  | Some (Aware us _) => Some (us / Pendulum.US_PER_SECOND)
  | Some (Elapsed _ _) => None
  | None => None
  end.

Definition starts_at (w : When) : option Z :=
  match w with
  | Time t _ => Some t
  | Timespan s _ _ _ => Some s
  | Date d => date_start d
  | Datespan s _ => date_start s
  | NotWhen _ => None
  end.

Definition in_window (q : ListEventQueryParams.t) (e : NylasEvent.t) : bool :=
  match starts_at (NylasEvent.when e) with
  | Some t =>
      (ListEventQueryParams.start q <=? t) &&
      match ListEventQueryParams.end_ q with
      | Some hi => t <=? hi
      | None => true
      end
  | None => false
  end.

(** Pages are cut from the matching events; the cursor of a page is the
    decimal offset of the next one. *)
Definition list_events (g : string) (q : ListEventQueryParams.t) (w : World)
  : Result (list NylasEvent.t * option string) * World :=
  served w (fun w =>
    let matching := filter (in_window q) (stored w) in
    let offset :=
      match ListEventQueryParams.page_token q with
      | Some t => match number t with Some n => Z.to_nat n | None => O end
      | None => O
      end in
    let size :=
      match ListEventQueryParams.limit q with
      | Some n => Nat.min (Z.to_nat n) (page_cap w)
      | None => page_cap w
      end in
    let next := (offset + size)%nat in
    (Ok (firstn size (skipn offset matching),
         if Nat.ltb next (List.length matching)
         then Some (str_of_Z (Z.of_nat next)) else None), w)).

Definition collaborator : Collaborator World :=
  Build_Collaborator World find_event destroy_event create_stored list_events.

(** A stored timed event and a stored all-day event. *)
Definition timed (i title : string) (start_ts : Z) : NylasEvent.t :=
  NylasEvent.mk i "grant" "primary" (Some title)
    (Timespan start_ts (start_ts + 1800) (Some "UTC") (Some "UTC"))
    None None None None None None None None (Some "confirmed") None None.

(** The stored timed event after normalisation in UTC. *)
Definition timed_event (i title : string) (start_ts : Z) : Event.t :=
  Event.mk i title
    (Some (Pendulum.mkDateTime (start_ts * Pendulum.US_PER_SECOND) Pendulum.UTC))
    (Some (Pendulum.mkDateTime ((start_ts + 1800) * Pendulum.US_PER_SECOND)
             Pendulum.UTC))
    false None None None None.

Definition scheduler (w : World) (clock : Z) : NylasScheduler.t World :=
  NylasScheduler.mk w "grant" "UTC" "primary" [] clock [] [] [].

Definition event (i title : string) : Event.t :=
  Event.mk i title None None false None None None None.

(** Scenario: three events of January 1970 on a service that hands out
    one event per page and answers every request. *)
Definition january : World :=
  mkWorld [timed "a" "Stand-up" 1000; timed "b" "Review" 2000; timed "c" "Retro" 3000]
    [] 7 1 None.

(** The same service, timing out from the second request on. *)
Definition january_flaky : World :=
  mkWorld (stored january) [] 7 1 (Some 1%nat).

(** Scenario: two events older than the retention window, the deletion
    of the second one refused, and one recent event. The clock stands at
    300000000 s (July 1979). *)
Definition backlog : World :=
  mkWorld [timed "a" "Old A" 1000; timed "b" "Old B" 2000;
           timed "c" "New" 299000000]
    ["b"] 7 200 None.

Definition backlog_clock : Z := 300000000 * Pendulum.US_PER_SECOND.

(** A scheduler configured for New York, and the noon of 2023-03-12
    there (16:00Z), the day daylight saving begins. *)
Definition new_york (w : World) (clock : Z) : NylasScheduler.t World :=
  NylasScheduler.mk w "grant" "America/New_York" "primary" [] clock [] [] [].

Definition spring_forward_noon : Z := 1678636800 * Pendulum.US_PER_SECOND.

(** The noon of the day before (2023-03-11T17:00Z). *)
Definition eve_of_spring_forward : Z := 1678554000 * Pendulum.US_PER_SECOND.

(** A scheduler whose history holds the given entries. *)
Definition scheduler_with (h : list ActionHistoryEntry.t) (w : World)
  : NylasScheduler.t World :=
  NylasScheduler.mk w "grant" "UTC" "primary" h 0 [] [] [].

(** Histories to undo: a creation recorded last, and a deletion with
    its snapshot recorded last. *)
Definition pending_creation : NylasScheduler.t World :=
  scheduler_with
    [ActionHistoryEntry.mk "delete" "b" None;
     ActionHistoryEntry.mk "create" "a" None] january.

Definition pending_deletion : NylasScheduler.t World :=
  scheduler_with
    [ActionHistoryEntry.mk "create" "c" None;
     ActionHistoryEntry.mk "delete" "a" (Some (timed "a" "Stand-up" 1000))]
    january.

Definition team_meeting : EventData.t :=
  EventData.mk "Team Meeting" "2023-10-15T10:00:00" 60 (Some "Conference Room A")
    (Some "Monthly team sync-up meeting.")
    (Some ["alice@example.com"; "bob@example.com"])
    None None None None None false.

(** What [create_event] returns for [team_meeting] on a service whose
    next identifier is 7. *)
Definition team_meeting_event : Event.t :=
  Event.mk "evt-7" "Team Meeting"
    (Some (Pendulum.mkDateTime 1697364000000000 Pendulum.UTC))
    (Some (Pendulum.mkDateTime 1697367600000000 Pendulum.UTC))
    false (Some "Conference Room A") (Some "Monthly team sync-up meeting.")
    (Some ["alice@example.com"; "bob@example.com"]) None.



(** A service that answers nothing any more. *)
Definition january_down : World :=
  mkWorld (stored january) [] 7 1 (Some 0%nat).

(** A service that never runs out of pages: every listing answers an
    empty page with a fresh cursor. Its state counts the listings. *)
Definition endless : Collaborator nat :=
  Build_Collaborator nat
    (fun _ _ _ n => (Raise (NylasApiError "event not found"), n))
    (fun _ _ _ n => (Raise (NylasApiError "event not found"), n))
    (fun _ _ _ _ n => (Raise (NylasApiError "not supported"), n))
    (fun _ _ n => (Ok ([], Some ("page-" +++ str_of_Z (Z.of_nat n))), S n)).

Definition endless_scheduler : NylasScheduler.t nat :=
  NylasScheduler.mk O "grant" "UTC" "primary" [] 0 [] [] [].

(** A stored event whose zone name is in no zone database. *)
Definition misplaced (i title : string) (ts : Z) : NylasEvent.t :=
  NylasEvent.mk i "grant" "primary" (Some title) (Time ts (Some "Mars/Olympus"))
    None None None None None None None None (Some "confirmed") None None.

(** A calendar with an unreadable event between two readable ones. *)
Definition spoiled : World :=
  mkWorld [timed "a" "Stand-up" 1000; misplaced "x" "Landing" 2000;
           timed "c" "Retro" 3000]
    [] 7 200 None.


End Mock.

(* ================================================================== *)
(** * Vocabulary of the properties *)

(** The four when-representations, as opposed to any other value. *)
Definition is_when_variant (w : When) : bool :=
  match w with
  | NotWhen _ => false
  | _ => true
  end.

(** A zone of one offset: it has no transition. *)
Definition fixed_offset (z : Pendulum.Timezone) (offset : Z) : Prop :=
  Pendulum.first_offset z = offset /\ Pendulum.transitions z = [].

(** The wall-clock time [w] occurs exactly once in a zone: no
    transition repeats it or skips it, and the date-time the zone shows
    as [w] reads [w]. *)
Definition occurs_once (z : Pendulum.Timezone) (w : Z) : Prop :=
  Pendulum.utcoffset_local z false w = Pendulum.utcoffset_local z true w /\
  Pendulum.wall (Pendulum.of_wall w z) = w.

(** The wall-clock midnight that begins the day of a date-time. *)
Definition local_midnight (d : Pendulum.DateTime) : Z :=
  Pendulum.wall d - Pendulum.wall d mod Pendulum.US_PER_DAY.

(** The variants that name calendar dates rather than instants. *)
Definition date_based (w : When) : bool :=
  match w with
  | Date _ | Datespan _ _ => true
  | _ => false
  end.

Section Readable.
Context {L : Libraries}.

Definition zone_known (name : option string) : Prop :=
  match name with
  | None => True
  | Some n => timezone n <> None
  end.

Definition parses (text zone : string) : Prop :=
  exists d, pendulum_parse text zone = Ok d.

(** What pendulum has to accept for [parse_when] to return: the zone
    names of an instant or span, the date texts of a date or date span. *)
Definition when_readable (w : When) (user_timezone : string) : Prop :=
  match w with
  | Time _ z => zone_known z
  | Timespan _ _ zs ze => zone_known zs /\ zone_known ze
  | Date d => parses d user_timezone
  | Datespan s e => parses s user_timezone /\ parses e user_timezone
  | NotWhen _ => False
  end.

End Readable.

(** The attendees of an input or of a normalised event, as the elements
    of a set: an absent list has none. *)
Definition attendee_elements (l : option (list string)) : list string :=
  match l with
  | Some a => a
  | None => []
  end.

Definition same_set (a b : list string) : Prop :=
  forall x, In x a <-> In x b.

(** Descending order of keys. *)
Definition descending {A} (key : A -> Z) (a b : A) : Prop := key b <= key a.

Section Paging.
Context {World : Type} {C : Collaborator World}.
Variables (g cal : string) (start end_ : Z).

(** What the service does when asked page after page: from the state
    [w] and the token [tok] it answers the pages [pages] to the tokens
    [toks], each answer carrying a truthy cursor, and is left in the
    state [w'] with [tok'] the cursor of its last answer. *)
Inductive Paged :
  World -> option string -> list (list NylasEvent.t) -> list (option string) ->
  World -> option string -> Prop :=
| paged_nil w tok : Paged w tok [] [] w tok
| paged_cons w tok evs next w1 pages toks w' tok' :
    events_list g (page_query cal start end_ tok) w = (Ok (evs, next), w1) ->
    truthy_str next = true ->
    Paged w1 next pages toks w' tok' ->
    Paged w tok (evs :: pages) (tok :: toks) w' tok'.

(** The state of the scheduler after the requests [cs] that left the
    service in the state [w]. *)
Definition sent_all (cs : list Call) (w : World) (self : NylasScheduler.t World)
  : NylasScheduler.t World :=
  NylasScheduler.mk w (NylasScheduler.grant_id self)
    (NylasScheduler.user_timezone self) (NylasScheduler.calendar_id self)
    (NylasScheduler.action_history self) (NylasScheduler.clock self)
    (NylasScheduler.calls self ++ cs)
    (NylasScheduler.errors self) (NylasScheduler.stdout self).

End Paging.

Section Windows.
Context {L : Libraries} {World : Type} {C : Collaborator World}.

(** The window the specification ascribes to the query for today: from
    the midnight that begins the day of the reference date to the
    midnight that begins the next day. *)
Definition midnight_to_midnight (reference_date : Pendulum.DateTime)
  (self : NylasScheduler.t World) : Prop :=
  get_todays_events (Some reference_date) self
  = get_events
      (Pendulum.int_timestamp (Pendulum.start_of_day reference_date))
      (Some (Pendulum.int_timestamp
               (Pendulum.start_of_day (Pendulum.add_days 1 reference_date))))
      None self.

End Windows.

Section CleanupWindow.
Context {World : Type}.

(** The retention window of [cleanup_calendar]: from the midnight that
    begins the day ten years before now to the last second of the day
    [days_to_keep] days before now, both in UTC. *)
Definition cleanup_start (self : NylasScheduler.t World) : Z :=
  Pendulum.int_timestamp
    (Pendulum.start_of_day (Pendulum.subtract_years 10 (now_utc self))).

Definition cleanup_end (days_to_keep : Z) (self : NylasScheduler.t World) : Z :=
  Pendulum.int_timestamp
    (Pendulum.end_of_day (Pendulum.subtract_days days_to_keep (now_utc self))).

(** The requests of a state are those of an earlier one followed by
    listings only. *)
Definition only_listed (self self' : NylasScheduler.t World) : Prop :=
  exists queries,
    NylasScheduler.calls self'
    = NylasScheduler.calls self
        ++ map (CallList (NylasScheduler.grant_id self)) queries.

(** Two states agree on the configuration, the history, the clock and
    the output. *)
Definition untouched (self self' : NylasScheduler.t World) : Prop :=
  NylasScheduler.grant_id self' = NylasScheduler.grant_id self /\
  NylasScheduler.user_timezone self' = NylasScheduler.user_timezone self /\
  NylasScheduler.calendar_id self' = NylasScheduler.calendar_id self /\
  NylasScheduler.action_history self' = NylasScheduler.action_history self /\
  NylasScheduler.clock self' = NylasScheduler.clock self /\
  NylasScheduler.stdout self' = NylasScheduler.stdout self.

End CleanupWindow.

(** The last line a run has printed. *)
Definition last_line (out : list string) : string := last out EmptyString.

(* ================================================================== *)
(** * Properties of the time normaliser *)

Section TimeNormaliser.
Context {L : Libraries}.

Lemma in_timezone_known (d : Pendulum.DateTime) (name : option string) :
  zone_known name -> exists t, in_timezone d name = Ok t.
Proof.
  destruct name as [n|]; simpl; intros H.
  - unfold resolve. destruct (timezone n) as [z|]; [|congruence].
    eexists; reflexivity.
  - eexists; reflexivity.
Qed.

(** C9. An input of [parse_when] that is none of the four
    when-representations makes the call raise
    [ValueError('Unknown when_data type.')], an invalid-input error; no
    result is returned. *)
Theorem parse_when_rejects_other_shapes (w : When) (user_timezone : string) :
  is_when_variant w = false ->
  parse_when w user_timezone = Raise (ValueError "Unknown when_data type.") /\
  error_kind (ValueError "Unknown when_data type.") = InvalidInputError.
Proof.
  destruct w; simpl; intros H; try discriminate.
  split; reflexivity.
Qed.

(** C5. For each of the four when-representations and every target zone,
    a result of [parse_when] has all-day true exactly when the variant is
    date-based; and the call does return such a result whenever pendulum
    accepts the zone names or date texts of the input. *)
Theorem parse_when_all_day_iff_date_based (w : When) (user_timezone : string) :
  is_when_variant w = true ->
  (forall start_time end_time all_day,
      parse_when w user_timezone = Ok (start_time, end_time, all_day) ->
      (all_day = true <-> date_based w = true)) /\
  (when_readable w user_timezone ->
   exists start_time end_time,
     parse_when w user_timezone = Ok (start_time, end_time, date_based w)).
Proof.
  intros Hv. split.
  - intros s e a H.
    destruct w as [t z | ts te zs ze | d | ds de | v]; simpl in *;
      try discriminate.
    + destruct (in_timezone (Pendulum.from_timestamp t) z); simpl in H;
        inversion H; subst; tauto.
    + destruct (in_timezone (Pendulum.from_timestamp ts) zs); simpl in H;
        [|discriminate].
      destruct (in_timezone (Pendulum.from_timestamp te) ze); simpl in H;
        inversion H; subst; tauto.
    + destruct (pendulum_parse d user_timezone); simpl in H;
        inversion H; subst; tauto.
    + destruct (pendulum_parse ds user_timezone); simpl in H; [|discriminate].
      destruct (pendulum_parse de user_timezone); simpl in H;
        inversion H; subst; tauto.
  - intros Hr.
    destruct w as [t z | ts te zs ze | d | ds de | v]; simpl in *;
      try contradiction.
    + destruct (in_timezone_known (Pendulum.from_timestamp t) z Hr) as [x Hx].
      rewrite Hx. simpl. eauto.
    + destruct Hr as [Hs He].
      destruct (in_timezone_known (Pendulum.from_timestamp ts) zs Hs) as [x Hx].
      destruct (in_timezone_known (Pendulum.from_timestamp te) ze He) as [y Hy].
      rewrite Hx, Hy. simpl. eauto.
    + destruct Hr as [x Hx]. rewrite Hx. simpl. eauto.
    + destruct Hr as [[x Hx] [y Hy]]. rewrite Hx, Hy. simpl. eauto.
Qed.

End TimeNormaliser.

Lemma parse_when_rejects_other_shapes_witness :
  parse_when (L := Mock.libraries) (NotWhen (PyStr "tomorrow")) "UTC"
  = Raise (ValueError "Unknown when_data type.").
Proof.
  exact (proj1 (parse_when_rejects_other_shapes
                  (L := Mock.libraries) (NotWhen (PyStr "tomorrow")) "UTC" eq_refl)).
Defined.

Lemma parse_when_all_day_iff_date_based_witness :
  (exists s e, parse_when (L := Mock.libraries) (Date "2023-10-15") "Europe/Paris"
               = Ok (s, e, true)) /\
  (exists s e, parse_when (L := Mock.libraries)
                 (Timespan 1697364000 1697367600 (Some "UTC") None) "Europe/Paris"
               = Ok (s, e, false)).
Proof.
  split.
  - apply (proj2 (parse_when_all_day_iff_date_based
                    (L := Mock.libraries) (Date "2023-10-15") "Europe/Paris" eq_refl)).
    simpl. unfold parses. eexists. reflexivity.
  - apply (proj2 (parse_when_all_day_iff_date_based
                    (L := Mock.libraries)
                    (Timespan 1697364000 1697367600 (Some "UTC") None)
                    "Europe/Paris" eq_refl)).
    simpl. split; [discriminate | exact I].
Defined.

(* ================================================================== *)
(** * Properties of the action history *)

Lemma pop_snoc {A} (h : list A) (x : A) : pop (h ++ [x]) = Some (x, h).
Proof.
  unfold pop. rewrite rev_app_distr. simpl. now rewrite rev_involutive.
Qed.

Lemma append_assoc (a b c : string) : (a +++ b) +++ c = a +++ b +++ c.
Proof. induction a as [|x a IH]; simpl; [|rewrite IH]; reflexivity. Qed.

(** The last but one part of a five-part message occurs in it. *)
Lemma contains_fourth (a b c needle d : string) :
  contains needle (a +++ b +++ c +++ needle +++ d).
Proof.
  exists (a +++ b +++ c), d. now rewrite !append_assoc.
Qed.

Section ActionHistory.
Context {L : Libraries} {World : Type} {C : Collaborator World}.

Local Abbreviation State := (NylasScheduler.t World).

(** C7. On an empty history [undo_last_action] returns the no-op message
    and leaves the whole state as it was: the history stays empty, no
    request is sent, nothing is raised. When the popped entry is a
    delete without snapshot it returns a descriptive text, again without
    a request and without raising. *)
Theorem undo_returns_text_without_data (self : State) :
  (NylasScheduler.action_history self = [] ->
   undo_last_action self = (Ok "No actions to undo.", self)) /\
  (forall h event_id,
      NylasScheduler.action_history self
      = h ++ [ActionHistoryEntry.mk "delete" event_id None] ->
      undo_last_action self
      = (Ok "No event data to recreate the event.", with_history h self)).
Proof.
  split.
  - intros H. unfold undo_last_action. rewrite H. reflexivity.
  - intros h i H. unfold undo_last_action. rewrite H, pop_snoc. reflexivity.
Qed.

(** C2. [delete_event] asks for the event before it deletes it. If the
    fetch raises, the call raises the same exception, only the fetch was
    sent and the history is unchanged. If fetch and delete both succeed,
    exactly one entry is appended: a delete entry for that identifier
    carrying the fetched snapshot. Whatever happens, the history is left
    unchanged or extended by one delete entry with a snapshot, and the
    first request sent is the fetch. *)
Theorem delete_event_records_snapshot (self : State) (event_id : string) :
  let g := NylasScheduler.grant_id self in
  let c := NylasScheduler.calendar_id self in
  (forall e w1,
      events_find g event_id c (NylasScheduler.nylas self) = (Raise e, w1) ->
      exists self',
        delete_event event_id self = (Raise e, self') /\
        NylasScheduler.calls self'
        = NylasScheduler.calls self ++ [CallFind g event_id c] /\
        NylasScheduler.action_history self' = NylasScheduler.action_history self) /\
  (forall event w1 u w2,
      events_find g event_id c (NylasScheduler.nylas self) = (Ok event, w1) ->
      events_destroy g event_id c w1 = (Ok u, w2) ->
      exists self',
        delete_event event_id self = (Ok tt, self') /\
        NylasScheduler.calls self'
        = NylasScheduler.calls self
            ++ [CallFind g event_id c; CallDestroy g event_id c] /\
        NylasScheduler.nylas self' = w2 /\
        NylasScheduler.action_history self'
        = NylasScheduler.action_history self
            ++ [ActionHistoryEntry.mk "delete" event_id (Some event)]) /\
  (forall r self',
      delete_event event_id self = (r, self') ->
      (exists rest,
          NylasScheduler.calls self'
          = NylasScheduler.calls self ++ CallFind g event_id c :: rest) /\
      (NylasScheduler.action_history self' = NylasScheduler.action_history self \/
       exists event,
         NylasScheduler.action_history self'
         = NylasScheduler.action_history self
             ++ [ActionHistoryEntry.mk "delete" event_id (Some event)])).
Proof.
  intros g c. subst g c.
  unfold delete_event, try_except, bind, nylas_events_find, nylas_events_destroy,
    history_append.
  repeat split.
  - intros e w1 Hf. rewrite Hf. eexists. split; [reflexivity|]. simpl. auto.
  - intros event w1 u w2 Hf Hd. rewrite Hf. simpl. rewrite Hd.
    destruct u. eexists. split; [reflexivity|]. simpl.
    rewrite <- app_assoc. auto.
  - destruct (events_find _ _ _ _) as [[event|e] w1] in H; simpl in H.
    + destruct (events_destroy _ _ _ _) as [[u|e] w2] in H; simpl in H;
        inversion H; subst; simpl; rewrite <- app_assoc; eexists; reflexivity.
    + inversion H; subst; simpl. eexists; reflexivity.
  - destruct (events_find _ _ _ _) as [[event|e] w1] in H; simpl in H.
    + destruct (events_destroy _ _ _ _) as [[u|e] w2] in H; simpl in H;
        inversion H; subst; simpl; eauto.
    + inversion H; subst; simpl. auto.
Qed.

(** C3. On a non-empty history [undo_last_action] removes exactly the
    last entry. For a create entry it sends exactly one delete request,
    for the recorded identifier, and, the request answered, returns the
    confirmation. For a delete entry with a snapshot it sends exactly one
    create request, built from the snapshot: title, when, location,
    description, participants, metadata, visibility, busy, capacity and
    hide_participants of the request are those of the snapshot, and the
    request has nothing else. The request answered, the call returns a
    message that contains the identifier of the new event. An
    exception of the collaborator is passed on, the entry staying
    removed. *)
Theorem undo_pops_last_entry (self : State) (h : list ActionHistoryEntry.t)
  (entry : ActionHistoryEntry.t) :
  NylasScheduler.action_history self = h ++ [entry] ->
  let g := NylasScheduler.grant_id self in
  let c := NylasScheduler.calendar_id self in
  let event_id := ActionHistoryEntry.event_id entry in
  forall r self',
    undo_last_action self = (r, self') ->
    NylasScheduler.action_history self' = h /\
    (ActionHistoryEntry.action entry = "create" ->
     NylasScheduler.calls self'
     = NylasScheduler.calls self ++ [CallDestroy g event_id c] /\
     match events_destroy g event_id c (NylasScheduler.nylas self) with
     | (Ok _, w) =>
         r = Ok ("Creation of event " +++ event_id +++ " has been undone.") /\
         NylasScheduler.nylas self' = w
     | (Raise e, _) => r = Raise e
     end) /\
    (ActionHistoryEntry.action entry = "delete" ->
     forall event,
       ActionHistoryEntry.event_data entry = Some event ->
       let request :=
         CreateEventRequest.mk
           (NylasEvent.title event)
           (SameWhen (NylasEvent.when event))
           (NylasEvent.location event)
           (NylasEvent.description event)
           (option_map (map SameParticipant) (NylasEvent.participants event))
           (NylasEvent.metadata event)
           (NylasEvent.visibility event)
           (NylasEvent.busy event)
           (NylasEvent.capacity event)
           (NylasEvent.hide_participants event) in
       NylasScheduler.calls self'
       = NylasScheduler.calls self ++ [CallCreate g request c "false"] /\
       match events_create g request c "false" (NylasScheduler.nylas self) with
       | (Ok recreated, w) =>
           r = Ok ("Deletion of event " +++ event_id +++
                   " has been undone. New event ID is " +++
                   NylasEvent.id recreated +++ ".") /\
           (exists msg, r = Ok msg /\ contains (NylasEvent.id recreated) msg) /\
           NylasScheduler.nylas self' = w
       | (Raise e, _) => r = Raise e
       end).
Proof.
  intros Hh g c event_id r self' H. subst g c event_id.
  unfold undo_last_action in H. rewrite Hh, pop_snoc in H.
  destruct entry as [action event_id event_data]. simpl in *.
  destruct (String.eqb_spec action "create") as [Hc|Hc].
  - subst action.
    unfold bind, nylas_events_destroy, ret in H. simpl in H.
    destruct (events_destroy _ _ _ _) as [[u|e] w]; simpl in H;
      inversion H; subst; simpl;
      (split; [reflexivity|]); (split; [auto | discriminate]).
  - destruct (String.eqb_spec action "delete") as [Hd|Hd].
    + subst action. destruct event_data as [event|].
      * unfold bind, nylas_events_create, ret in H.
        simpl in H.
        destruct (events_create _ _ _ _ _) as [[recreated|e] w] eqn:Hcr;
          simpl in H; inversion H; subst; simpl;
          (split; [reflexivity|]); (split; [discriminate|]);
          intros _ ev Hev; inversion Hev; subst ev; rewrite Hcr;
          (split; [reflexivity|]); auto.
        split; [reflexivity|]. split; [|reflexivity].
        eexists. split; [reflexivity|].
        exact (contains_fourth
                 "Deletion of event " event_id " has been undone. New event ID is "
                 (NylasEvent.id recreated) ".").
      * inversion H; subst; simpl. split; [reflexivity|].
        split; [discriminate|]. intros _ ev Hev. discriminate.
    + inversion H; subst; simpl. split; [reflexivity|].
      split; intros; congruence.
Qed.

End ActionHistory.

Lemma undo_returns_text_without_data_witness :
  undo_last_action (C := Mock.collaborator)
    (Mock.scheduler_with [] Mock.january)
  = (Ok "No actions to undo.", Mock.scheduler_with [] Mock.january) /\
  undo_last_action (C := Mock.collaborator)
    (Mock.scheduler_with [ActionHistoryEntry.mk "delete" "a" None] Mock.january)
  = (Ok "No event data to recreate the event.", Mock.scheduler_with [] Mock.january).
Proof.
  split.
  - exact (proj1 (undo_returns_text_without_data
                    (C := Mock.collaborator)
                    (Mock.scheduler_with [] Mock.january)) eq_refl).
  - exact (proj2 (undo_returns_text_without_data
                    (C := Mock.collaborator)
                    (Mock.scheduler_with
                       [ActionHistoryEntry.mk "delete" "a" None] Mock.january))
                 [] "a" eq_refl).
Defined.

Lemma delete_event_records_snapshot_witness :
  (exists self',
      delete_event (C := Mock.collaborator) "missing"
        (Mock.scheduler_with [] Mock.january)
      = (Raise (NylasApiError "event not found"), self') /\
      NylasScheduler.calls self' = [CallFind "grant" "missing" "primary"] /\
      NylasScheduler.action_history self' = []) /\
  (exists self',
      delete_event (C := Mock.collaborator) "a"
        (Mock.scheduler_with [] Mock.january)
      = (Ok tt, self') /\
      NylasScheduler.action_history self'
      = [ActionHistoryEntry.mk "delete" "a" (Some (Mock.timed "a" "Stand-up" 1000))]).
Proof.
  split.
  - destruct (proj1 (delete_event_records_snapshot
                       (C := Mock.collaborator)
                       (Mock.scheduler_with [] Mock.january) "missing")
                _ _ eq_refl) as [self' H].
    exists self'. exact H.
  - destruct (proj1 (proj2 (delete_event_records_snapshot
                              (C := Mock.collaborator)
                              (Mock.scheduler_with [] Mock.january) "a"))
                _ _ _ _ eq_refl eq_refl) as [self' (H1 & _ & _ & H2)].
    exists self'. split; [exact H1 | exact H2].
Defined.

Lemma undo_pops_last_entry_witness :
  (NylasScheduler.action_history
     (snd (undo_last_action (C := Mock.collaborator) Mock.pending_creation))
   = [ActionHistoryEntry.mk "delete" "b" None] /\
   NylasScheduler.calls
     (snd (undo_last_action (C := Mock.collaborator) Mock.pending_creation))
   = [CallDestroy "grant" "a" "primary"] /\
   fst (undo_last_action (C := Mock.collaborator) Mock.pending_creation)
   = Ok "Creation of event a has been undone.") /\
  (NylasScheduler.action_history
     (snd (undo_last_action (C := Mock.collaborator) Mock.pending_deletion))
   = [ActionHistoryEntry.mk "create" "c" None] /\
   NylasScheduler.calls
     (snd (undo_last_action (C := Mock.collaborator) Mock.pending_deletion))
   = [CallCreate "grant"
        (CreateEventRequest.mk (Some "Stand-up")
           (SameWhen (Timespan 1000 2800 (Some "UTC") (Some "UTC")))
           None None None None None None None None)
        "primary" "false"] /\
   fst (undo_last_action (C := Mock.collaborator) Mock.pending_deletion)
   = Ok "Deletion of event a has been undone. New event ID is evt-7.").
Proof.
  split.
  - destruct (undo_pops_last_entry
                (C := Mock.collaborator) Mock.pending_creation
                [ActionHistoryEntry.mk "delete" "b" None]
                (ActionHistoryEntry.mk "create" "a" None)
                eq_refl _ _ (surjective_pairing _)) as [Hh [Hc _]].
    destruct (Hc eq_refl) as [Hcalls Hr].
    split; [exact Hh|]. split; [exact Hcalls|]. exact (proj1 Hr).
  - destruct (undo_pops_last_entry
                (C := Mock.collaborator) Mock.pending_deletion
                [ActionHistoryEntry.mk "create" "c" None]
                (ActionHistoryEntry.mk "delete" "a"
                   (Some (Mock.timed "a" "Stand-up" 1000)))
                eq_refl _ _ (surjective_pairing _)) as [Hh [_ Hd]].
    destruct (Hd eq_refl _ eq_refl) as [Hcalls Hr].
    split; [exact Hh|]. split; [exact Hcalls|]. exact (proj1 Hr).
Defined.

(* ================================================================== *)
(** * Properties of the fuzzy search *)

Section StableSort.
Variable A : Type.
Variable key : A -> Z.

Local Abbreviation descending := (descending key).

Lemma insert_reverse_perm (x : A) (l : list A) :
  Permutation (insert_reverse key x l) (x :: l).
Proof.
  induction l as [|y l IH]; simpl.
  - apply Permutation_refl.
  - destruct (key y <=? key x).
    + apply Permutation_refl.
    + eapply perm_trans; [apply perm_skip, IH | apply perm_swap].
Qed.

Lemma sort_reverse_perm (l : list A) : Permutation (sort_reverse key l) l.
Proof.
  induction l as [|x l IH]; simpl.
  - apply perm_nil.
  - eapply perm_trans; [apply insert_reverse_perm | apply perm_skip, IH].
Qed.

Lemma insert_reverse_sorted (x : A) (l : list A) :
  StronglySorted descending l ->
  StronglySorted descending (insert_reverse key x l).
Proof.
  induction 1 as [|y l Hs IH Hy]; simpl.
  - repeat constructor.
  - destruct (Z.leb_spec (key y) (key x)) as [Hle|Hgt].
    + constructor; [constructor; assumption|].
      constructor; [exact Hle|].
      eapply Forall_impl; [|exact Hy].
      unfold descending. intros z Hz. lia.
    + constructor; [exact IH|].
      apply (Permutation_Forall (Permutation_sym (insert_reverse_perm x l))).
      constructor; [unfold descending; lia | exact Hy].
Qed.

Lemma sort_reverse_sorted (l : list A) :
  StronglySorted descending (sort_reverse key l).
Proof.
  induction l as [|x l IH]; simpl.
  - constructor.
  - apply insert_reverse_sorted, IH.
Qed.

(** Insertion never moves an element past one of the same key, so the
    elements of any one key keep their order. *)
Lemma insert_reverse_stable (v : Z) (x : A) (l : list A) :
  filter (fun a => key a =? v) (insert_reverse key x l)
  = filter (fun a => key a =? v) (x :: l).
Proof.
  induction l as [|y l IH]; [reflexivity|].
  simpl insert_reverse.
  destruct (Z.leb_spec (key y) (key x)) as [Hle|Hgt]; [reflexivity|].
  change (filter (fun a => key a =? v) (y :: insert_reverse key x l))
    with (if key y =? v
          then y :: filter (fun a => key a =? v) (insert_reverse key x l)
          else filter (fun a => key a =? v) (insert_reverse key x l)).
  rewrite IH. simpl.
  destruct (Z.eqb_spec (key y) v) as [Hy|Hy];
    destruct (Z.eqb_spec (key x) v) as [Hx|Hx]; try reflexivity.
  lia.
Qed.

Lemma sort_reverse_stable (v : Z) (l : list A) :
  filter (fun a => key a =? v) (sort_reverse key l)
  = filter (fun a => key a =? v) l.
Proof.
  induction l as [|x l IH]; [reflexivity|].
  simpl sort_reverse. rewrite insert_reverse_stable.
  simpl. now rewrite IH.
Qed.

End StableSort.

Section FuzzySearch.
Context {L : Libraries}.

(** C10. [fuzzy_search_events] returns exactly the events whose score
    reaches the threshold (each as often as it occurs in the input), in
    descending order of score, and the events of any one score stand in
    the order they had in the input: the sort is stable. *)
Theorem fuzzy_search_sorted_and_stable (events : list Event.t)
  (search_query : string) (threshold : Z) :
  let score := similarity search_query in
  let result := fuzzy_search_events events search_query threshold in
  Permutation result (filter (fun e => threshold <=? score e) events) /\
  (forall e, In e result <-> In e events /\ threshold <= score e) /\
  StronglySorted (fun a b => score b <= score a) result /\
  (forall v,
      filter (fun e => score e =? v) result
      = filter (fun e => score e =? v)
          (filter (fun e => threshold <=? score e) events)).
Proof.
  intros score result. subst result. unfold fuzzy_search_events. fold score.
  pose proof (sort_reverse_perm _ score
                (filter (fun e => threshold <=? score e) events)) as Hp.
  split; [exact Hp|]. split; [|split].
  - intros e. split.
    + intros H. apply (Permutation_in _ Hp) in H.
      apply filter_In in H. destruct H as [Hin Hs]. split; [exact Hin|].
      now apply Z.leb_le.
    + intros [Hin Hs]. apply (Permutation_in _ (Permutation_sym Hp)).
      apply filter_In. split; [exact Hin|]. now apply Z.leb_le.
  - apply (sort_reverse_sorted _ score).
  - intros v. apply sort_reverse_stable.
Qed.

End FuzzySearch.

(** The scenario of the specification: threshold 80, query sync. *)
Example fuzzy_search_sync :
  map Event.title
    (fuzzy_search_events (L := Mock.libraries)
       [Mock.event "1" "Team Sync"; Mock.event "2" "Budget Review";
        Mock.event "3" "Sync Meeting"] "sync" 80)
  = ["Team Sync"; "Sync Meeting"].
Proof. reflexivity. Qed.

(* ================================================================== *)
(** * Properties of the paginated listing *)

(** One year after the epoch, and one year after a 29th of February:
    the day is clamped to the 28th. *)
Example default_end_epoch : default_end 0 None = 31536000.
Proof. reflexivity. Qed.

Example default_end_leap_day :
  default_end (Pendulum.days_from_civil 2020 2 29 * 86400) None
  = Pendulum.days_from_civil 2021 2 28 * 86400.
Proof. reflexivity. Qed.

Lemma mapR_app {A B} (f : A -> Result B) (l1 l2 : list A) (r : list B) :
  mapR f (l1 ++ l2) = Ok r ->
  exists a b, mapR f l1 = Ok a /\ mapR f l2 = Ok b /\ r = a ++ b.
Proof.
  revert r. induction l1 as [|x l1 IH]; simpl; intros r H.
  - exists [], r. auto.
  - destruct (f x) as [y|e]; simpl in *; [|discriminate].
    destruct (mapR f (l1 ++ l2)) as [ys|e]; simpl in *; [|discriminate].
    inversion H; subst r.
    destruct (IH ys eq_refl) as (a & b & Ha & Hb & Hab).
    exists (y :: a), b. rewrite Ha. simpl. subst ys. auto.
Qed.

Section Listing.
Context {L : Libraries} {World : Type} {C : Collaborator World}.

Local Abbreviation State := (NylasScheduler.t World).

Lemma sent_all_nil (self : State) :
  sent_all [] (NylasScheduler.nylas self) self = self.
Proof. destruct self. unfold sent_all. simpl. now rewrite app_nil_r. Qed.

Lemma sent_all_sent_all (cs1 cs2 : list Call) (w1 w2 : World) (self : State) :
  sent_all cs2 w2 (sent_all cs1 w1 self) = sent_all (cs1 ++ cs2) w2 self.
Proof. unfold sent_all. simpl. now rewrite app_assoc. Qed.

Lemma fetch_page_ok (self : State) (start end_ : Z) (tok next : option string)
  (acc : list Event.t) (evs : list NylasEvent.t) (p : list Event.t) (w1 : World) :
  events_list (NylasScheduler.grant_id self)
    (page_query (NylasScheduler.calendar_id self) start end_ tok)
    (NylasScheduler.nylas self) = (Ok (evs, next), w1) ->
  mapR (fun e => parse_nylas_event e (NylasScheduler.user_timezone self)) evs = Ok p ->
  fetch_page start end_ tok acc self
  = (Ok (acc ++ p, next),
     sent_all [CallList (NylasScheduler.grant_id self)
                 (page_query (NylasScheduler.calendar_id self) start end_ tok)]
       w1 self).
Proof.
  intros Hl Hp.
  unfold fetch_page, try_except, bind, nylas_events_list, lift, ret.
  rewrite Hl. simpl. rewrite Hp. reflexivity.
Qed.

Lemma fetch_page_raise (self : State) (start end_ : Z) (tok : option string)
  (acc : list Event.t) (e : Exn) (w1 : World) :
  events_list (NylasScheduler.grant_id self)
    (page_query (NylasScheduler.calendar_id self) start end_ tok)
    (NylasScheduler.nylas self) = (Raise e, w1) ->
  exists self', fetch_page start end_ tok acc self = (Raise e, self').
Proof.
  intros Hl.
  unfold fetch_page, try_except, bind, nylas_events_list.
  rewrite Hl. eexists. reflexivity.
Qed.

(** The loop follows a run of answered pages turn by turn. *)
Lemma fetch_pages_paged (g cal tz : string) (start end_ : Z)
  (w : World) (tok : option string) (pages : list (list NylasEvent.t))
  (toks : list (option string)) (w1 : World) (tok1 : option string) :
  Paged g cal start end_ w tok pages toks w1 tok1 ->
  forall (self : State) (acc parsed : list Event.t) (fuel : nat),
    NylasScheduler.nylas self = w ->
    NylasScheduler.grant_id self = g ->
    NylasScheduler.calendar_id self = cal ->
    NylasScheduler.user_timezone self = tz ->
    mapR (fun e => parse_nylas_event e tz) (List.concat pages) = Ok parsed ->
    fetch_pages (List.length pages + fuel) start end_ tok acc self
    = fetch_pages fuel start end_ tok1 (acc ++ parsed)
        (sent_all (map (fun t => CallList g (page_query cal start end_ t)) toks)
           w1 self).
Proof.
  induction 1 as [w tok | w tok evs next w1 pages toks w' tok' Hl Hn HP IH];
    intros self acc parsed fuel Hw Hg Hc Hz Hp.
  - simpl in *. inversion Hp; subst parsed. rewrite app_nil_r.
    subst w. now rewrite sent_all_nil.
  - simpl List.concat in Hp. apply mapR_app in Hp.
    destruct Hp as (a & b & Ha & Hb & Hab). subst parsed.
    simpl. subst g cal tz w.
    rewrite (fetch_page_ok self start end_ tok next acc evs a w1 Hl Ha), Hn.
    erewrite IH by (reflexivity || exact Hb).
    now rewrite sent_all_sent_all, app_assoc.
Qed.

(** A finished or failed listing of the window from [start] to [end_]. *)
Lemma listing_run (self : State) (start end_ : Z)
  (pages : list (list NylasEvent.t)) (toks : list (option string))
  (w1 : World) (tok1 : option string) (parsed : list Event.t) :
  let g := NylasScheduler.grant_id self in
  let cal := NylasScheduler.calendar_id self in
  let tz := NylasScheduler.user_timezone self in
  let run fuel :=
    match fetch_pages fuel start end_ None [] self with
    | None => None
    | Some r => Some (reraised r self)
    end in
  Paged g cal start end_ (NylasScheduler.nylas self) None pages toks w1 tok1 ->
  mapR (fun e => parse_nylas_event e tz) (List.concat pages) = Ok parsed ->
  (forall evs next w' last fuel,
      events_list g (page_query cal start end_ tok1) w1 = (Ok (evs, next), w') ->
      truthy_str next = false ->
      mapR (fun e => parse_nylas_event e tz) evs = Ok last ->
      (List.length pages < fuel)%nat ->
      run fuel
      = Some (Ok (parsed ++ last),
              sent_all
                (map (fun t => CallList g (page_query cal start end_ t))
                     (toks ++ [tok1])) w' self)) /\
  (forall e w' fuel,
      events_list g (page_query cal start end_ tok1) w1 = (Raise e, w') ->
      (List.length pages < fuel)%nat ->
      exists self', run fuel = Some (Raise e, self')).
Proof.
  intros g cal tz run HP Hp. subst run.
  assert (Hfuel : forall fuel, (List.length pages < fuel)%nat ->
             fuel = (List.length pages + S (fuel - S (List.length pages)))%nat)
    by (intros; lia).
  split.
  - intros evs next w' last fuel Hl Hn Hlast Hlt.
    rewrite (Hfuel fuel Hlt).
    rewrite (fetch_pages_paged g cal tz start end_ _ _ pages toks w1 tok1 HP
               self [] parsed (S (fuel - S (List.length pages)))
               eq_refl eq_refl eq_refl eq_refl Hp).
    cbn [fetch_pages app].
    erewrite fetch_page_ok; [|exact Hl|exact Hlast].
    rewrite Hn. unfold reraised, try_except.
    rewrite sent_all_sent_all, map_app. reflexivity.
  - intros e w' fuel Hl Hlt.
    rewrite (Hfuel fuel Hlt).
    rewrite (fetch_pages_paged g cal tz start end_ _ _ pages toks w1 tok1 HP
               self [] parsed (S (fuel - S (List.length pages)))
               eq_refl eq_refl eq_refl eq_refl Hp).
    cbn [fetch_pages app].
    destruct (fetch_page_raise
                (sent_all (map (fun t => CallList g (page_query cal start end_ t)) toks)
                   w1 self) start end_ tok1 parsed e w' Hl) as [self' Hf].
    rewrite Hf. unfold reraised, try_except. eexists. reflexivity.
Qed.

(** C6. Called without an end, [get_all_events] asks for the window
    from [start] to one calendar year later, 200 events a page, the first
    page without token and each further one with the cursor of the page
    before. When the service answers page after page and at last without
    a cursor, the call returns the events of all pages in page order and
    has sent exactly these requests. When a page fetch raises, the call
    raises that exception and returns nothing. *)
Theorem get_all_events_follows_cursor (self : State) (start : Z)
  (pages : list (list NylasEvent.t)) (toks : list (option string))
  (w1 : World) (tok1 : option string) (parsed : list Event.t) :
  let g := NylasScheduler.grant_id self in
  let cal := NylasScheduler.calendar_id self in
  let tz := NylasScheduler.user_timezone self in
  let query := page_query cal start (default_end start None) in
  Paged g cal start (default_end start None) (NylasScheduler.nylas self) None
    pages toks w1 tok1 ->
  mapR (fun e => parse_nylas_event e tz) (List.concat pages) = Ok parsed ->
  (forall evs next w' last fuel,
      events_list g (query tok1) w1 = (Ok (evs, next), w') ->
      truthy_str next = false ->
      mapR (fun e => parse_nylas_event e tz) evs = Ok last ->
      (List.length pages < fuel)%nat ->
      get_all_events fuel start None self
      = Some (Ok (parsed ++ last),
              sent_all (map (fun t => CallList g (query t)) (toks ++ [tok1]))
                w' self)) /\
  (forall e w' fuel,
      events_list g (query tok1) w1 = (Raise e, w') ->
      (List.length pages < fuel)%nat ->
      exists self', get_all_events fuel start None self = Some (Raise e, self')) /\
  (forall tok,
      query tok
      = ListEventQueryParams.mk cal start (Some (default_end start None))
          (Some 200) None (if truthy_str tok then tok else None)) /\
  default_end start None
  = Pendulum.int_timestamp (Pendulum.add_years 1 (Pendulum.from_timestamp start)).
Proof.
  intros g cal tz query HP Hp.
  destruct (listing_run self start (default_end start None)
              pages toks w1 tok1 parsed HP Hp) as [Hok Hraise].
  split; [exact Hok|]. split; [exact Hraise|]. split.
  - intros tok. unfold query, page_query. destruct (truthy_str tok); reflexivity.
  - reflexivity.
Qed.

End Listing.

Lemma get_all_events_follows_cursor_witness :
  (exists self',
      get_all_events (L := Mock.libraries) (C := Mock.collaborator) 3 0 None
        (Mock.scheduler Mock.january 0)
      = Some (Ok [Mock.timed_event "a" "Stand-up" 1000;
                  Mock.timed_event "b" "Review" 2000;
                  Mock.timed_event "c" "Retro" 3000], self') /\
      map (fun c => match c with
                    | CallList _ q => ListEventQueryParams.page_token q
                    | _ => None
                    end) (NylasScheduler.calls self')
      = [None; Some "1"; Some "2"]) /\
  (exists self',
      get_all_events (L := Mock.libraries) (C := Mock.collaborator) 3 0 None
        (Mock.scheduler Mock.january_flaky 0)
      = Some (Raise (NylasSdkTimeoutError "https://api.us.nylas.com"), self')).
Proof.
  split.
  - assert (HP : Paged (C := Mock.collaborator) "grant" "primary" 0
                   (default_end 0 None) Mock.january None
                   [[Mock.timed "a" "Stand-up" 1000]; [Mock.timed "b" "Review" 2000]]
                   [None; Some "1"] Mock.january (Some "2")).
    { eapply paged_cons; [reflexivity | reflexivity |].
      eapply paged_cons; [reflexivity | reflexivity |].
      apply paged_nil. }
    destruct (get_all_events_follows_cursor
                (L := Mock.libraries) (C := Mock.collaborator)
                (Mock.scheduler Mock.january 0) 0 _ _ _ _
                [Mock.timed_event "a" "Stand-up" 1000;
                 Mock.timed_event "b" "Review" 2000] HP eq_refl) as [Hok _].
    eexists. split.
    + apply (Hok [Mock.timed "c" "Retro" 3000] None Mock.january
               [Mock.timed_event "c" "Retro" 3000] 3%nat);
        [reflexivity | reflexivity | reflexivity |].
      simpl. repeat constructor.
    + reflexivity.
  - assert (HP : Paged (C := Mock.collaborator) "grant" "primary" 0
                   (default_end 0 None) Mock.january_flaky None
                   [[Mock.timed "a" "Stand-up" 1000]]
                   [None]
                   (Mock.mkWorld (Mock.stored Mock.january) [] 7 1 (Some 0%nat))
                   (Some "1")).
    { eapply paged_cons; [reflexivity | reflexivity |]. apply paged_nil. }
    destruct (get_all_events_follows_cursor
                (L := Mock.libraries) (C := Mock.collaborator)
                (Mock.scheduler Mock.january_flaky 0) 0 _ _ _ _
                [Mock.timed_event "a" "Stand-up" 1000] HP eq_refl)
      as (_ & Hraise & _).
    apply (Hraise (NylasSdkTimeoutError "https://api.us.nylas.com")
             (Mock.mkWorld (Mock.stored Mock.january) [] 7 1 (Some 0%nat)) 3%nat).
    + reflexivity.
    + simpl. repeat constructor.
Defined.

(* ================================================================== *)
(** * Properties of the event translator *)

Lemma parsed_attendees (ps : option (list Participant.t)) :
  attendee_elements
    (if truthy_list ps then
       match ps with
       | Some l => Some (map Participant.email l)
       | None => None
       end
     else None)
  = emails_of ps.
Proof. destruct ps as [[|p l]|]; reflexivity. Qed.

Lemma requested_attendees (attendees : option (list string)) :
  request_emails
    (if truthy_list attendees then
       match attendees with
       | Some l => Some (map CreateParticipant l)
       | None => None
       end
     else None)
  = attendee_elements attendees.
Proof.
  destruct attendees as [[|a l]|]; try reflexivity.
  simpl. f_equal. rewrite map_map. simpl. apply map_id.
Qed.

Section Translator.
Context {L : Libraries} {World : Type} {C : Collaborator World}.

Local Abbreviation State := (NylasScheduler.t World).

(** C4. An [EventData] translated to a create request, the event the
    service answers that request with, carrying the request's title,
    timing, location and participants, and that event read back by
    [parse_nylas_event]: the result is what [create_event] returns, and it
    has the title, the location, the set of attendees and the all-day
    flag of the input. *)
Theorem create_event_round_trip (self : State) (event_data : EventData.t)
  (request : CreateEventRequest.t) (answer : NylasEvent.t) (w' : World)
  (event : Event.t) :
  create_event_request event_data (NylasScheduler.user_timezone self) = Ok request ->
  events_create (NylasScheduler.grant_id self) request
    (NylasScheduler.calendar_id self) "false" (NylasScheduler.nylas self)
  = (Ok answer, w') ->
  echoes request answer ->
  parse_nylas_event answer (NylasScheduler.user_timezone self) = Ok event ->
  (exists self', create_event event_data self = (Ok event, self')) /\
  Event.title event = EventData.title event_data /\
  Event.location event = EventData.location event_data /\
  same_set (attendee_elements (Event.attendees event))
           (attendee_elements (EventData.attendees event_data)) /\
  Event.all_day event = EventData.all_day event_data.
Proof.
  intros Hreq Hcreate (Ht & Hw & Hl & Hps) Hparse.
  split.
  - unfold create_event, try_except, bind, lift, nylas_events_create,
      history_append.
    rewrite Hreq. cbn beta iota. rewrite Hcreate. cbn beta iota.
    cbn [NylasScheduler.user_timezone with_history sent].
    rewrite Hparse. eexists. reflexivity.
  - unfold create_event_request in Hreq.
    destruct (pendulum_parse_value (EventData.when event_data)
                (NylasScheduler.user_timezone self))
      as [[parsed|class_name zero]|e];
      cbn [bindR truthy_parsed negb datetime_of] in Hreq;
      [| destruct zero; discriminate | discriminate].
    inversion Hreq as [Hr]. clear Hreq.
    rewrite <- Hr in Ht, Hw, Hl, Hps.
    cbn [CreateEventRequest.title CreateEventRequest.when
         CreateEventRequest.location CreateEventRequest.participants]
      in Ht, Hw, Hl, Hps.
    rewrite requested_attendees in Hps.
    unfold parse_nylas_event in Hparse. rewrite Ht, Hw, Hl in Hparse.
    assert (Hflag :
              forall s e a,
                parse_when
                  (read_when
                     (if EventData.all_day event_data
                      then NewWhen (CreateDate (Pendulum.to_date_string parsed))
                      else NewWhen
                             (CreateTimespan
                                (Pendulum.int_of_timestamp parsed)
                                (Pendulum.int_of_timestamp
                                   (Pendulum.add_minutes
                                      (EventData.duration_minutes event_data) parsed))
                                (NylasScheduler.user_timezone self)
                                (NylasScheduler.user_timezone self))))
                  (NylasScheduler.user_timezone self) = Ok (s, e, a) ->
                a = EventData.all_day event_data).
    { intros s e a H. destruct (EventData.all_day event_data);
        cbn [read_when parse_when] in H.
      - destruct (pendulum_parse _ _); cbn [bindR] in H; now inversion H.
      - destruct (in_timezone _ _); cbn [bindR] in H; [|discriminate].
        destruct (in_timezone _ _); cbn [bindR] in H; now inversion H. }
    destruct (parse_when _ _) as [[[s e] a]|x]; cbn [bindR] in Hparse;
      [|discriminate].
    cbn [required_str bindR] in Hparse. inversion Hparse as [He]. clear Hparse.
    cbn [Event.title Event.location Event.attendees Event.all_day].
    repeat split; try reflexivity.
    + rewrite parsed_attendees. apply Hps.
    + rewrite parsed_attendees. apply Hps.
    + exact (Hflag s e a eq_refl).
Qed.

End Translator.

Lemma create_event_round_trip_witness :
  exists event self',
    create_event (L := Mock.libraries) (C := Mock.collaborator) Mock.team_meeting
      (Mock.scheduler Mock.january 0) = (Ok event, self') /\
    Event.title event = "Team Meeting" /\
    Event.location event = Some "Conference Room A" /\
    Event.attendees event = Some ["alice@example.com"; "bob@example.com"] /\
    Event.all_day event = false.
Proof.
  destruct (create_event_round_trip
              (L := Mock.libraries) (C := Mock.collaborator)
              (Mock.scheduler Mock.january 0) Mock.team_meeting
              _ _ _ _ eq_refl eq_refl
              (conj eq_refl (conj eq_refl (conj eq_refl (fun a => iff_refl _))))
              eq_refl)
    as ([self' Hrun] & Htitle & Hloc & _ & Hday).
  eexists. exists self'. split; [exact Hrun|].
  repeat split; reflexivity.
Defined.

(* ================================================================== *)
(** * Properties of the convenience windows *)

Lemma fixed_timezone_fixed (name : string) (offset : Z) :
  fixed_offset (Pendulum.fixed_timezone name offset) offset.
Proof. split; reflexivity. Qed.

Lemma fixed_utcoffset_at (z : Pendulum.Timezone) (offset i : Z) :
  fixed_offset z offset -> Pendulum.utcoffset_at z i = offset.
Proof.
  intros [H1 H2]. unfold Pendulum.utcoffset_at. now rewrite H1, H2.
Qed.

Lemma fixed_localize (z : Pendulum.Timezone) (offset w : Z) :
  fixed_offset z offset ->
  Pendulum.localize z w = w - offset * Pendulum.US_PER_SECOND.
Proof.
  intros [H1 H2]. unfold Pendulum.localize, Pendulum.utcoffset_local.
  rewrite H1, H2. cbn [Pendulum.offset_after].
  now rewrite Z.ltb_irrefl.
Qed.

Lemma fixed_wall (d : Pendulum.DateTime) (offset : Z) :
  fixed_offset (Pendulum.tz d) offset ->
  Pendulum.wall d = Pendulum.instant d + offset * Pendulum.US_PER_SECOND.
Proof.
  intros H. unfold Pendulum.wall. now rewrite (fixed_utcoffset_at _ _ _ H).
Qed.

(** In a zone of one offset every wall-clock time occurs once. *)
Lemma fixed_occurs_once (z : Pendulum.Timezone) (offset w : Z) :
  fixed_offset z offset -> occurs_once z w.
Proof.
  intros H. split.
  { destruct H as [H1 H2]. unfold Pendulum.utcoffset_local.
    now rewrite H1, H2. }
  rewrite (fixed_wall _ offset) by exact H.
  unfold Pendulum.of_wall. cbn [Pendulum.instant].
  rewrite (fixed_localize _ _ _ H). lia.
Qed.

Lemma start_of_day_timestamp (d : Pendulum.DateTime) (offset : Z) :
  fixed_offset (Pendulum.tz d) offset ->
  Pendulum.int_timestamp (Pendulum.start_of_day d)
  = 86400 * (Pendulum.wall d / 86400000000) - offset.
Proof.
  intros H.
  unfold Pendulum.int_timestamp, Pendulum.start_of_day, Pendulum.of_wall.
  cbn [Pendulum.instant Pendulum.tz]. rewrite (fixed_localize _ _ _ H).
  change Pendulum.US_PER_DAY with 86400000000.
  change Pendulum.US_PER_SECOND with 1000000.
  generalize (Pendulum.wall d).
  intros w. Z.to_euclidean_division_equations. lia.
Qed.

Lemma end_of_day_timestamp (d : Pendulum.DateTime) (offset : Z) :
  fixed_offset (Pendulum.tz d) offset ->
  Pendulum.int_timestamp (Pendulum.end_of_day d)
  = Pendulum.int_timestamp (Pendulum.start_of_day d) + 86399.
Proof.
  intros H. rewrite (start_of_day_timestamp _ _ H).
  unfold Pendulum.int_timestamp, Pendulum.end_of_day, Pendulum.of_wall.
  cbn [Pendulum.instant Pendulum.tz]. rewrite (fixed_localize _ _ _ H).
  change Pendulum.US_PER_DAY with 86400000000.
  change Pendulum.US_PER_SECOND with 1000000.
  generalize (Pendulum.wall d).
  intros w. Z.to_euclidean_division_equations. lia.
Qed.

Lemma day_contains_reference (d : Pendulum.DateTime) (offset : Z) :
  fixed_offset (Pendulum.tz d) offset ->
  Pendulum.int_timestamp (Pendulum.start_of_day d) <= Pendulum.int_timestamp d
  < Pendulum.int_timestamp (Pendulum.start_of_day d) + 86400.
Proof.
  intros H. rewrite (start_of_day_timestamp _ _ H), (fixed_wall _ _ H).
  unfold Pendulum.int_timestamp.
  change Pendulum.US_PER_SECOND with 1000000.
  generalize (Pendulum.instant d).
  intros i. Z.to_euclidean_division_equations. lia.
Qed.

Lemma add_days_tz (n : Z) (d : Pendulum.DateTime) :
  Pendulum.tz (Pendulum.add_days n d) = Pendulum.tz d.
Proof. reflexivity. Qed.

Lemma add_days_instant (n : Z) (d : Pendulum.DateTime) (offset : Z) :
  fixed_offset (Pendulum.tz d) offset ->
  Pendulum.instant (Pendulum.add_days n d)
  = Pendulum.instant d + n * Pendulum.US_PER_DAY.
Proof.
  intros H. unfold Pendulum.add_days, Pendulum.of_wall.
  cbn [Pendulum.instant]. rewrite (fixed_localize _ _ _ H).
  rewrite (fixed_wall _ _ H). lia.
Qed.

Lemma next_day_timestamp (d : Pendulum.DateTime) (offset : Z) :
  fixed_offset (Pendulum.tz d) offset ->
  Pendulum.int_timestamp (Pendulum.start_of_day (Pendulum.add_days 1 d))
  = Pendulum.int_timestamp (Pendulum.start_of_day d) + 86400.
Proof.
  intros H.
  rewrite (start_of_day_timestamp (Pendulum.add_days 1 d) offset) by exact H.
  rewrite (start_of_day_timestamp d offset) by exact H.
  rewrite (fixed_wall (Pendulum.add_days 1 d) offset) by exact H.
  rewrite (add_days_instant 1 d offset H), (fixed_wall d offset H).
  change Pendulum.US_PER_DAY with 86400000000.
  change Pendulum.US_PER_SECOND with 1000000.
  generalize (Pendulum.instant d).
  intros i. Z.to_euclidean_division_equations. lia.
Qed.

Section Today.
Context {L : Libraries} {World : Type} {C : Collaborator World}.

Local Abbreviation State := (NylasScheduler.t World).

(** What the query for today hands on when the zone of the reference
    date has one offset: the window starts on the midnight that begins
    the day and ends 86399 seconds later, one second before the midnight
    that begins the next day. *)
Lemma todays_window_one_second_short (reference_date : Pendulum.DateTime)
  (offset : Z) (self : State) :
  fixed_offset (Pendulum.tz reference_date) offset ->
  let today := Pendulum.int_timestamp (Pendulum.start_of_day reference_date) in
  get_todays_events (Some reference_date) self
  = get_events today (Some (today + 86399)) None self /\
  Pendulum.int_timestamp
    (Pendulum.start_of_day (Pendulum.add_days 1 reference_date))
  = today + 86400.
Proof.
  intros H today. subst today. split.
  - unfold get_todays_events, bind, ret.
    now rewrite (end_of_day_timestamp _ _ H).
  - apply (next_day_timestamp _ _ H).
Qed.

End Today.

(** C8, at two failing inputs. For the reference date
    1970-01-01T00:00:00Z the query for today asks for the window from 0
    to 86399, where the midnight that begins the next day is 86400. In
    the zone America/New_York, at noon of 2023-03-12, a day of 23 hours,
    it asks for the window from 1678597200 to 1678679999, where the
    next local midnight is 1678680000. In both the window ends on
    23:59:59 of the day, one second before the midnight the
    specification names. *)
Theorem todays_window_stops_before_midnight :
  (NylasScheduler.calls
     (snd (get_todays_events (L := Mock.libraries) (C := Mock.collaborator)
             (Some (Pendulum.from_timestamp 0)) (Mock.scheduler Mock.january 0)))
   = [CallList "grant"
        (ListEventQueryParams.mk "primary" 0 (Some 86399) (Some 100)
           (Some true) None)] /\
   Pendulum.int_timestamp
     (Pendulum.start_of_day (Pendulum.add_days 1 (Pendulum.from_timestamp 0)))
   = 86400 /\
   ~ midnight_to_midnight (L := Mock.libraries) (C := Mock.collaborator)
       (Pendulum.from_timestamp 0) (Mock.scheduler Mock.january 0)) /\
  (NylasScheduler.calls
     (snd (get_todays_events (L := Mock.libraries) (C := Mock.collaborator)
             None (Mock.new_york Mock.january Mock.spring_forward_noon)))
   = [CallList "grant"
        (ListEventQueryParams.mk "primary" 1678597200 (Some 1678679999)
           (Some 100) (Some true) None)] /\
   Pendulum.int_timestamp
     (Pendulum.start_of_day
        (Pendulum.add_days 1
           (Pendulum.mkDateTime Mock.spring_forward_noon Mock.America_New_York)))
   = 1678680000 /\
   ~ midnight_to_midnight (L := Mock.libraries) (C := Mock.collaborator)
       (Pendulum.mkDateTime Mock.spring_forward_noon Mock.America_New_York)
       (Mock.new_york Mock.january Mock.spring_forward_noon)).
Proof.
  split; [split; [|split] | split; [|split]].
  - reflexivity.
  - reflexivity.
  - unfold midnight_to_midnight. intros H.
    apply (f_equal (fun r => NylasScheduler.calls (snd r))) in H.
    vm_compute in H. discriminate H.
  - reflexivity.
  - reflexivity.
  - unfold midnight_to_midnight. intros H.
    apply (f_equal (fun r => NylasScheduler.calls (snd r))) in H.
    vm_compute in H. discriminate H.
Qed.

(* ================================================================== *)
(** * Properties of the calendar cleanup *)

Lemma last_line_snoc (out : list string) (line : string) :
  last_line (out ++ [line]) = line.
Proof. unfold last_line. apply last_last. Qed.

Section Cleanup.
Context {L : Libraries} {World : Type} {C : Collaborator World}.

Local Abbreviation State := (NylasScheduler.t World).

(** The loop over the listed events never raises. *)
Lemma delete_each_completes (events_to_delete : list Event.t) (self : State) :
  exists self', delete_each events_to_delete self = (Ok tt, self').
Proof.
  revert self. induction events_to_delete as [|event rest IH]; intros self.
  - eexists. reflexivity.
  - cbn [delete_each]. unfold bind.
    destruct (delete_event (Event.id event) self) as [[u|e] self1];
      apply IH.
Qed.

(** A run of [cleanup_calendar] that completes closes with the number of
    events it listed, whatever became of their deletions. *)
Lemma cleanup_reports_listed (fuel : nat) (days_to_keep : Z) (self self' : State) :
  cleanup_calendar fuel days_to_keep self = Some (Ok tt, self') ->
  exists start end_ events_to_delete self1,
    get_all_events fuel start (Some end_) self = Some (Ok events_to_delete, self1) /\
    last_line (NylasScheduler.stdout self')
    = cleanup_report (List.length events_to_delete).
Proof.
  unfold cleanup_calendar.
  generalize (Pendulum.int_timestamp
                (Pendulum.start_of_day (Pendulum.subtract_years 10 (now_utc self)))).
  generalize (Pendulum.int_timestamp
                (Pendulum.end_of_day
                   (Pendulum.subtract_days days_to_keep (now_utc self)))).
  intros end_ start H.
  destruct (get_all_events fuel start (Some end_) self)
    as [[[events_to_delete|e] self1]|] eqn:Hlist; [| |discriminate].
  - exists start, end_, events_to_delete, self1. split; [exact Hlist|].
    unfold try_except, bind in H.
    destruct (delete_each_completes events_to_delete self1) as [self2 Hloop].
    rewrite Hloop in H. inversion H; subst self'.
    unfold print. cbn [NylasScheduler.stdout]. apply last_line_snoc.
  - unfold try_except, bind in H. discriminate H.
Qed.

End Cleanup.

(** C1, at a failing input. Two events fall into the retention window
    and the deletion of the second one is refused: the run completes,
    one event is deleted, one delete entry is recorded, and the closing
    line reports 2 where the specification asks for 1. *)
Theorem cleanup_reports_refused_deletion :
  match cleanup_calendar (L := Mock.libraries) (C := Mock.collaborator) 5 30
          (Mock.scheduler Mock.backlog Mock.backlog_clock) with
  | Some (Ok _, self') =>
      NylasScheduler.stdout self'
      = ["Deleted event: Old A (ID: a)"; "Cleanup complete. Deleted 2 events."] /\
      last_line (NylasScheduler.stdout self') = cleanup_report 2 /\
      count_deletions (NylasScheduler.action_history self') = 1%nat /\
      map NylasEvent.id (Mock.stored (NylasScheduler.nylas self')) = ["b"; "c"] /\
      map context (NylasScheduler.errors self')
      = ["Nylas API error while deleting event"; "Error deleting event b"]
  | _ => False
  end.
Proof. vm_compute. repeat split; reflexivity. Qed.

(* ================================================================== *)
(** * Further properties: creating, deleting and undoing *)

Section Mutations.
Context {L : Libraries} {World : Type} {C : Collaborator World}.

Local Abbreviation State := (NylasScheduler.t World).

(** The text [create_event] logs an exception under. *)
Local Abbreviation creating :=
  (by_class "Nylas API error while creating event"
            "Nylas OAuth error while creating event"
            "Timeout error while creating event"
            "Unexpected error while creating event").

Local Abbreviation deleting :=
  (by_class "Nylas API error while deleting event"
            "Nylas OAuth error while deleting event"
            "Timeout error while deleting event"
            "Unexpected error while deleting event").

Lemma create_event_answered (self : State) (event_data : EventData.t)
  (request : CreateEventRequest.t) (answer : NylasEvent.t) (w' : World) :
  create_event_request event_data (NylasScheduler.user_timezone self) = Ok request ->
  events_create (NylasScheduler.grant_id self) request
    (NylasScheduler.calendar_id self) "false" (NylasScheduler.nylas self)
  = (Ok answer, w') ->
  let recorded :=
    with_history
      (NylasScheduler.action_history self
         ++ [ActionHistoryEntry.mk "create" (NylasEvent.id answer) None])
      (sent (CallCreate (NylasScheduler.grant_id self) request
               (NylasScheduler.calendar_id self) "false") w' self) in
  create_event event_data self
  = match parse_nylas_event answer (NylasScheduler.user_timezone self) with
    | Ok event => (Ok event, recorded)
    | Raise e => (Raise e, logger_error (creating e) e recorded)
    end.
Proof.
  intros Hreq Hcreate recorded. subst recorded.
  unfold create_event, try_except, bind, lift, nylas_events_create, history_append.
  rewrite Hreq. cbn beta iota. rewrite Hcreate. cbn beta iota.
  cbn [NylasScheduler.user_timezone NylasScheduler.action_history with_history sent].
  destruct (parse_nylas_event answer (NylasScheduler.user_timezone self));
    reflexivity.
Qed.

(** X1. Once the service has answered the create request, [create_event]
    has recorded exactly one create entry, for the identifier of the
    answer and without snapshot, and has sent exactly that one request
    with participant notification off. This holds also when reading the
    answer back raises: the exception is passed on, but the event exists
    and its creation stays on the history. *)
Theorem create_event_records_answered_request (self : State)
  (event_data : EventData.t) (request : CreateEventRequest.t)
  (answer : NylasEvent.t) (w' : World) :
  create_event_request event_data (NylasScheduler.user_timezone self) = Ok request ->
  events_create (NylasScheduler.grant_id self) request
    (NylasScheduler.calendar_id self) "false" (NylasScheduler.nylas self)
  = (Ok answer, w') ->
  exists r self',
    create_event event_data self = (r, self') /\
    r = parse_nylas_event answer (NylasScheduler.user_timezone self) /\
    NylasScheduler.action_history self'
    = NylasScheduler.action_history self
        ++ [ActionHistoryEntry.mk "create" (NylasEvent.id answer) None] /\
    NylasScheduler.calls self'
    = NylasScheduler.calls self
        ++ [CallCreate (NylasScheduler.grant_id self) request
              (NylasScheduler.calendar_id self) "false"] /\
    NylasScheduler.nylas self' = w'.
Proof.
  intros Hreq Hcreate.
  rewrite (create_event_answered self event_data request answer w' Hreq Hcreate).
  destruct (parse_nylas_event answer (NylasScheduler.user_timezone self));
    eexists; eexists; (split; [reflexivity|]); repeat split; reflexivity.
Qed.

(** The translation of an input fails only on its [when] text or on the
    configured zone: the text is not accepted, it is a date-time without
    offset and the zone is unknown, or it is a duration, which is
    refused as unparsed when of length zero and has no [add] otherwise. *)
Lemma create_event_request_errors (event_data : EventData.t) (zone : string)
  (e : Exn) :
  create_event_request event_data zone = Raise e ->
  e = ParserError (EventData.when event_data) \/
  e = InvalidTimezone zone \/
  e = ValueError "Could not parse 'when' field." \/
  exists class_name, e = AttributeError class_name.
Proof.
  unfold create_event_request, pendulum_parse_value, resolve.
  destruct (iso8601 (EventData.when event_data)) as [[w|i off|class_name zero]|];
    cbn [bindR truthy_parsed negb datetime_of]; try discriminate.
  - destruct (timezone zone); cbn [bindR truthy_parsed negb datetime_of];
      intros H; [discriminate|].
    inversion H. auto.
  - destruct zero; cbn [bindR negb datetime_of]; intros H; inversion H; eauto.
  - intros H. inversion H. auto.
Qed.


Lemma create_event_untranslated (self : State) (event_data : EventData.t) (e : Exn) :
  create_event_request event_data (NylasScheduler.user_timezone self) = Raise e ->
  create_event event_data self
  = (Raise e, logger_error "Unexpected error while creating event" e self).
Proof.
  intros Hreq.
  unfold create_event, try_except, bind, lift. rewrite Hreq.
  destruct (create_event_request_errors _ _ _ Hreq)
    as [He|[He|[He|[class_name He]]]]; subst e; reflexivity.
Qed.

Lemma create_event_unanswered (self : State) (event_data : EventData.t)
  (request : CreateEventRequest.t) (e : Exn) (w' : World) :
  create_event_request event_data (NylasScheduler.user_timezone self) = Ok request ->
  events_create (NylasScheduler.grant_id self) request
    (NylasScheduler.calendar_id self) "false" (NylasScheduler.nylas self)
  = (Raise e, w') ->
  create_event event_data self
  = (Raise e,
     logger_error (creating e) e
       (sent (CallCreate (NylasScheduler.grant_id self) request
                (NylasScheduler.calendar_id self) "false") w' self)).
Proof.
  intros Hreq Hcreate.
  unfold create_event, try_except, bind, lift, nylas_events_create.
  rewrite Hreq. cbn beta iota. rewrite Hcreate. reflexivity.
Qed.


Lemma parse_nylas_event_id (answer : NylasEvent.t) (zone : string) (event : Event.t) :
  parse_nylas_event answer zone = Ok event ->
  Event.id event = NylasEvent.id answer.
Proof.
  unfold parse_nylas_event.
  destruct (parse_when _ _) as [[[s e] a]|x]; cbn [bindR]; [|discriminate].
  destruct (required_str _ _); cbn [bindR]; intros H; inversion H. reflexivity.
Qed.

(** What a successful [create_event] went through. *)
Lemma create_event_inversion (self self1 : State) (event_data : EventData.t)
  (event : Event.t) :
  create_event event_data self = (Ok event, self1) ->
  exists request answer w',
    create_event_request event_data (NylasScheduler.user_timezone self)
    = Ok request /\
    events_create (NylasScheduler.grant_id self) request
      (NylasScheduler.calendar_id self) "false" (NylasScheduler.nylas self)
    = (Ok answer, w') /\
    parse_nylas_event answer (NylasScheduler.user_timezone self) = Ok event /\
    self1
    = with_history
        (NylasScheduler.action_history self
           ++ [ActionHistoryEntry.mk "create" (NylasEvent.id answer) None])
        (sent (CallCreate (NylasScheduler.grant_id self) request
                 (NylasScheduler.calendar_id self) "false") w' self).
Proof.
  intros H.
  destruct (create_event_request event_data (NylasScheduler.user_timezone self))
    as [request|e] eqn:Hreq.
  - destruct (events_create (NylasScheduler.grant_id self) request
                (NylasScheduler.calendar_id self) "false"
                (NylasScheduler.nylas self)) as [[answer|e] w'] eqn:Hcreate.
    + rewrite (create_event_answered self event_data request answer w' Hreq Hcreate)
        in H.
      destruct (parse_nylas_event answer (NylasScheduler.user_timezone self))
        as [ev|e] eqn:Hparse; inversion H; subst.
      exists request, answer, w'. repeat split; assumption.
    + rewrite (create_event_unanswered self event_data request e w' Hreq Hcreate)
        in H.
      discriminate H.
  - rewrite (create_event_untranslated self event_data e Hreq) in H.
    discriminate H.
Qed.

(** X3. [undo_last_action] right after a successful [create_event] sends
    exactly one delete request, for the identifier of the event that was
    returned, and leaves the history as it was before the creation; the
    request answered, it returns the confirmation naming that
    identifier. *)
Theorem create_event_then_undo (self self1 : State) (event_data : EventData.t)
  (event : Event.t) :
  create_event event_data self = (Ok event, self1) ->
  exists r self2,
    undo_last_action self1 = (r, self2) /\
    NylasScheduler.action_history self2 = NylasScheduler.action_history self /\
    NylasScheduler.calls self2
    = NylasScheduler.calls self1
        ++ [CallDestroy (NylasScheduler.grant_id self) (Event.id event)
              (NylasScheduler.calendar_id self)] /\
    match events_destroy (NylasScheduler.grant_id self) (Event.id event)
            (NylasScheduler.calendar_id self) (NylasScheduler.nylas self1) with
    | (Ok _, _) =>
        r = Ok ("Creation of event " +++ Event.id event +++ " has been undone.")
    | (Raise e, _) => r = Raise e
    end.
Proof.
  intros H.
  destruct (create_event_inversion self self1 event_data event H)
    as (request & answer & w' & _ & _ & Hparse & Hs1).
  rewrite (parse_nylas_event_id answer _ event Hparse).
  subst self1. unfold undo_last_action.
  cbn [NylasScheduler.action_history with_history sent].
  rewrite pop_snoc.
  cbn [ActionHistoryEntry.action ActionHistoryEntry.event_id String.eqb].
  change (String.eqb "create" "create") with true. cbn iota.
  unfold bind, nylas_events_destroy, ret.
  cbn [NylasScheduler.grant_id NylasScheduler.calendar_id NylasScheduler.nylas
       NylasScheduler.calls with_history sent].
  destruct (events_destroy _ _ _ _) as [[u|e] w2];
    eexists; eexists; (split; [reflexivity|]); repeat split; reflexivity.
Qed.

(** What a successful [delete_event] went through. *)
Lemma delete_event_inversion (self self1 : State) (event_id : string) :
  delete_event event_id self = (Ok tt, self1) ->
  exists snapshot w1 w2,
    events_find (NylasScheduler.grant_id self) event_id
      (NylasScheduler.calendar_id self) (NylasScheduler.nylas self)
    = (Ok snapshot, w1) /\
    events_destroy (NylasScheduler.grant_id self) event_id
      (NylasScheduler.calendar_id self) w1 = (Ok tt, w2) /\
    self1
    = with_history
        (NylasScheduler.action_history self
           ++ [ActionHistoryEntry.mk "delete" event_id (Some snapshot)])
        (sent (CallDestroy (NylasScheduler.grant_id self) event_id
                 (NylasScheduler.calendar_id self)) w2
           (sent (CallFind (NylasScheduler.grant_id self) event_id
                    (NylasScheduler.calendar_id self)) w1 self)).
Proof.
  intros H.
  unfold delete_event, try_except, bind, nylas_events_find, nylas_events_destroy,
    history_append in H.
  destruct (events_find (NylasScheduler.grant_id self) event_id
              (NylasScheduler.calendar_id self) (NylasScheduler.nylas self))
    as [[snapshot|e] w1] eqn:Hf; cbn beta iota in H; [|discriminate].
  cbn [NylasScheduler.grant_id NylasScheduler.calendar_id NylasScheduler.nylas sent]
    in H.
  destruct (events_destroy (NylasScheduler.grant_id self) event_id
              (NylasScheduler.calendar_id self) w1)
    as [[[]|e] w2] eqn:Hd; cbn beta iota in H; [|discriminate].
  inversion H. exists snapshot, w1, w2.
  split; [reflexivity|]. split; [exact Hd|]. reflexivity.
Qed.

(** X4. [undo_last_action] right after a successful [delete_event] sends
    exactly one create request, built from the snapshot that was fetched
    before the deletion (its title, when, location, description,
    participants, metadata, visibility, busy, capacity and
    hide_participants, and nothing else), and leaves the history as it was
    before the deletion: the recreation is not recorded. The request
    answered, the
    returned message names the deleted identifier and the identifier of
    the recreated event. *)
Theorem delete_event_then_undo (self self1 : State) (event_id : string) :
  delete_event event_id self = (Ok tt, self1) ->
  exists snapshot w1 r self2,
    events_find (NylasScheduler.grant_id self) event_id
      (NylasScheduler.calendar_id self) (NylasScheduler.nylas self)
    = (Ok snapshot, w1) /\
    undo_last_action self1 = (r, self2) /\
    NylasScheduler.action_history self2 = NylasScheduler.action_history self /\
    let request :=
      CreateEventRequest.mk
        (NylasEvent.title snapshot)
        (SameWhen (NylasEvent.when snapshot))
        (NylasEvent.location snapshot)
        (NylasEvent.description snapshot)
        (option_map (map SameParticipant) (NylasEvent.participants snapshot))
        (NylasEvent.metadata snapshot)
        (NylasEvent.visibility snapshot)
        (NylasEvent.busy snapshot)
        (NylasEvent.capacity snapshot)
        (NylasEvent.hide_participants snapshot) in
    NylasScheduler.calls self2
    = NylasScheduler.calls self1
        ++ [CallCreate (NylasScheduler.grant_id self) request
              (NylasScheduler.calendar_id self) "false"] /\
    match events_create (NylasScheduler.grant_id self) request
            (NylasScheduler.calendar_id self) "false"
            (NylasScheduler.nylas self1) with
    | (Ok recreated, _) =>
        r = Ok ("Deletion of event " +++ event_id +++
                " has been undone. New event ID is " +++
                NylasEvent.id recreated +++ ".")
    | (Raise e, _) => r = Raise e
    end.
Proof.
  intros H.
  destruct (delete_event_inversion self self1 event_id H)
    as (snapshot & w1 & w2 & Hfind & _ & Hs1).
  exists snapshot, w1. subst self1. unfold undo_last_action.
  cbn [NylasScheduler.action_history with_history sent].
  rewrite pop_snoc.
  cbn [ActionHistoryEntry.action ActionHistoryEntry.event_id
       ActionHistoryEntry.event_data].
  change (String.eqb "delete" "create") with false.
  change (String.eqb "delete" "delete") with true. cbn iota.
  unfold bind, nylas_events_create, ret.
  cbn [NylasScheduler.grant_id NylasScheduler.calendar_id NylasScheduler.nylas
       NylasScheduler.calls with_history sent].
  destruct (events_create _ _ _ _ _) as [[recreated|e] w3];
    eexists; eexists; (split; [exact Hfind|]); (split; [reflexivity|]);
    repeat split; reflexivity.
Qed.

(** X5. An entry whose action is neither create nor delete is removed by
    [undo_last_action] all the same: the call returns the text for an
    unknown action, sends nothing, and the entry is gone. *)
Theorem undo_discards_unknown_action (self : State)
  (h : list ActionHistoryEntry.t) (entry : ActionHistoryEntry.t) :
  NylasScheduler.action_history self = h ++ [entry] ->
  ActionHistoryEntry.action entry <> "create" ->
  ActionHistoryEntry.action entry <> "delete" ->
  undo_last_action self = (Ok "Unknown action.", with_history h self).
Proof.
  intros Hh Hc Hd. unfold undo_last_action. rewrite Hh, pop_snoc.
  destruct (String.eqb_spec (ActionHistoryEntry.action entry) "create");
    [contradiction|].
  destruct (String.eqb_spec (ActionHistoryEntry.action entry) "delete");
    [contradiction|].
  reflexivity.
Qed.

(** X6. When the event was fetched but its deletion raises,
    [delete_event] passes that exception on after both requests, records
    nothing on the history, and logs one error under the text of the
    exception's class. *)
Theorem delete_event_refused (self : State) (event_id : string)
  (snapshot : NylasEvent.t) (w1 w2 : World) (e : Exn) :
  events_find (NylasScheduler.grant_id self) event_id
    (NylasScheduler.calendar_id self) (NylasScheduler.nylas self)
  = (Ok snapshot, w1) ->
  events_destroy (NylasScheduler.grant_id self) event_id
    (NylasScheduler.calendar_id self) w1 = (Raise e, w2) ->
  exists self',
    delete_event event_id self = (Raise e, self') /\
    NylasScheduler.action_history self' = NylasScheduler.action_history self /\
    NylasScheduler.calls self'
    = NylasScheduler.calls self
        ++ [CallFind (NylasScheduler.grant_id self) event_id
              (NylasScheduler.calendar_id self);
            CallDestroy (NylasScheduler.grant_id self) event_id
              (NylasScheduler.calendar_id self)] /\
    NylasScheduler.errors self'
    = NylasScheduler.errors self ++ [mkLog (deleting e) e] /\
    NylasScheduler.nylas self' = w2.
Proof.
  intros Hfind Hdestroy.
  unfold delete_event, try_except, bind, nylas_events_find, nylas_events_destroy.
  rewrite Hfind. cbn beta iota.
  cbn [NylasScheduler.grant_id NylasScheduler.calendar_id NylasScheduler.nylas sent].
  rewrite Hdestroy. eexists. split; [reflexivity|].
  cbn [NylasScheduler.action_history NylasScheduler.calls NylasScheduler.errors
       NylasScheduler.nylas logger_error sent].
  rewrite <- app_assoc. repeat split; reflexivity.
Qed.

End Mutations.

Lemma create_event_records_answered_request_witness :
  exists r self',
    create_event (L := Mock.libraries) (C := Mock.collaborator) Mock.team_meeting
      (Mock.scheduler Mock.january 0) = (r, self') /\
    r = Ok Mock.team_meeting_event /\
    NylasScheduler.action_history self'
    = [ActionHistoryEntry.mk "create" "evt-7" None].
Proof.
  destruct (create_event_records_answered_request
              (L := Mock.libraries) (C := Mock.collaborator)
              (Mock.scheduler Mock.january 0) Mock.team_meeting _ _ _
              eq_refl eq_refl)
    as (r & self' & Hrun & Hr & Hh & _).
  exists r, self'. split; [exact Hrun|]. split; [exact Hr | exact Hh].
Defined.


Lemma create_event_then_undo_witness :
  exists r self2,
    undo_last_action (C := Mock.collaborator)
      (snd (create_event (L := Mock.libraries) (C := Mock.collaborator)
              Mock.team_meeting (Mock.scheduler Mock.january 0)))
    = (r, self2) /\
    NylasScheduler.action_history self2 = [].
Proof.
  destruct (create_event_then_undo
              (L := Mock.libraries) (C := Mock.collaborator)
              (Mock.scheduler Mock.january 0)
              (snd (create_event (L := Mock.libraries) (C := Mock.collaborator)
                      Mock.team_meeting (Mock.scheduler Mock.january 0)))
              Mock.team_meeting Mock.team_meeting_event eq_refl)
    as (r & self2 & Hrun & Hh & _).
  exists r, self2. split; [exact Hrun | exact Hh].
Defined.

Lemma delete_event_then_undo_witness :
  exists r self2,
    undo_last_action (C := Mock.collaborator)
      (snd (delete_event (C := Mock.collaborator) "a"
              (Mock.scheduler Mock.january 0)))
    = (r, self2) /\
    NylasScheduler.action_history self2 = [] /\
    NylasScheduler.calls self2
    = [CallFind "grant" "a" "primary"; CallDestroy "grant" "a" "primary";
       CallCreate "grant"
         (CreateEventRequest.mk (Some "Stand-up")
            (SameWhen (Timespan 1000 2800 (Some "UTC") (Some "UTC")))
            None None None None None None None None)
         "primary" "false"] /\
    r = Ok "Deletion of event a has been undone. New event ID is evt-7.".
Proof.
  destruct (delete_event_then_undo (C := Mock.collaborator)
              (Mock.scheduler Mock.january 0)
              (snd (delete_event (C := Mock.collaborator) "a"
                      (Mock.scheduler Mock.january 0)))
              "a" eq_refl)
    as (snapshot & w1 & r & self2 & Hfind & Hrun & Hh & Hcalls & Hr).
  assert (Hs : snapshot = Mock.timed "a" "Stand-up" 1000)
    by (injection Hfind as Hs _; symmetry; exact Hs).
  subst snapshot.
  exists r, self2. split; [exact Hrun|]. split; [exact Hh|].
  split; [exact Hcalls | exact Hr].
Defined.

Lemma undo_discards_unknown_action_witness :
  undo_last_action (C := Mock.collaborator)
    (Mock.scheduler_with [ActionHistoryEntry.mk "update" "a" None] Mock.january)
  = (Ok "Unknown action.", Mock.scheduler_with [] Mock.january).
Proof.
  apply (undo_discards_unknown_action (C := Mock.collaborator)
           (Mock.scheduler_with [ActionHistoryEntry.mk "update" "a" None]
              Mock.january)
           [] (ActionHistoryEntry.mk "update" "a" None) eq_refl);
    discriminate.
Defined.

Lemma delete_event_refused_witness :
  exists self',
    delete_event (C := Mock.collaborator) "b"
      (Mock.scheduler Mock.backlog Mock.backlog_clock)
    = (Raise (NylasApiError "deletion refused"), self') /\
    NylasScheduler.action_history self' = [].
Proof.
  destruct (delete_event_refused (C := Mock.collaborator)
              (Mock.scheduler Mock.backlog Mock.backlog_clock) "b"
              _ _ _ _ eq_refl eq_refl)
    as (self' & Hrun & Hh & _).
  exists self'. split; [exact Hrun | exact Hh].
Defined.

(* ================================================================== *)
(** * Further properties: listing *)

Lemma mapR_Forall2 {A B} (f : A -> Result B) (l : list A) (r : list B) :
  mapR f l = Ok r <-> Forall2 (fun x y => f x = Ok y) l r.
Proof.
  revert r. induction l as [|x l IH]; intros r; simpl.
  - split.
    + intros H. inversion H. constructor.
    + intros H. inversion H. reflexivity.
  - split.
    + destruct (f x) as [y|e] eqn:Hx; simpl; [|discriminate].
      destruct (mapR f l) as [ys|e]; simpl; [|discriminate].
      intros H. inversion H. constructor; [exact Hx|]. now apply IH.
    + intros H. inversion H as [|x' y l' ys Hx Hrest]; subst.
      rewrite Hx. simpl. apply IH in Hrest. rewrite Hrest. reflexivity.
Qed.

Lemma mapR_In_raise {A B} (f : A -> Result B) (l : list A) (x : A) (e : Exn) :
  In x l -> f x = Raise e -> exists e', mapR f l = Raise e'.
Proof.
  induction l as [|y l IH]; simpl; [contradiction|].
  intros [Hy|Hin] Hx.
  - subst y. rewrite Hx. simpl. eauto.
  - destruct (f y); simpl; [|eauto].
    destruct (IH Hin Hx) as [e' He']. rewrite He'. simpl. eauto.
Qed.

Section SinglePage.
Context {L : Libraries} {World : Type} {C : Collaborator World}.

Local Abbreviation State := (NylasScheduler.t World).

Local Abbreviation fetching :=
  (by_class "Nylas API error while fetching events"
            "Nylas OAuth error while fetching events"
            "Timeout error while fetching events"
            "Unexpected error while fetching events").

(** The query [get_events] sends. *)
Local Abbreviation events_query self start end_ limit :=
  (ListEventQueryParams.mk (NylasScheduler.calendar_id self) start
     (int_or end_ None) (int_or limit (Some 100)) (Some true) None).

Lemma get_events_run (self : State) (start : Z) (end_ limit : option Z) :
  get_events start end_ limit self
  = let q := events_query self start end_ limit in
    let g := NylasScheduler.grant_id self in
    match events_list g q (NylasScheduler.nylas self) with
    | (Ok (evs, _), w') =>
        match mapR (fun ev =>
                      parse_nylas_event ev (NylasScheduler.user_timezone self)) evs
        with
        | Ok events => (Ok events, sent (CallList g q) w' self)
        | Raise e =>
            (Raise e, logger_error (fetching e) e (sent (CallList g q) w' self))
        end
    | (Raise e, w') =>
        (Raise e, logger_error (fetching e) e (sent (CallList g q) w' self))
    end.
Proof.
  unfold get_events, try_except, bind, lift, nylas_events_list.
  cbn zeta.
  destruct (events_list _ _ _) as [[[evs c]|e] w']; cbn beta iota; [|reflexivity].
  cbn [fst NylasScheduler.user_timezone sent].
  destruct (mapR _ evs); reflexivity.
Qed.

(** X7. [get_events] sends one listing request and returns the events of
    the answered page, normalised, one for one and in the order of the
    answer, with their identifiers. A cursor in the answer is ignored: no
    second page is asked for. *)
Theorem get_events_first_page_in_order (self : State) (start : Z)
  (end_ limit : option Z) (evs : list NylasEvent.t) (cursor : option string)
  (w' : World) (events : list Event.t) :
  events_list (NylasScheduler.grant_id self) (events_query self start end_ limit)
    (NylasScheduler.nylas self) = (Ok (evs, cursor), w') ->
  Forall2 (fun ev event =>
             parse_nylas_event ev (NylasScheduler.user_timezone self) = Ok event)
          evs events ->
  get_events start end_ limit self
  = (Ok events,
     sent (CallList (NylasScheduler.grant_id self)
             (events_query self start end_ limit)) w' self) /\
  map Event.id events = map NylasEvent.id evs /\
  List.length events = List.length evs.
Proof.
  intros Hlist Hall. split; [|split].
  - rewrite get_events_run. cbn zeta. rewrite Hlist.
    apply mapR_Forall2 in Hall. rewrite Hall. reflexivity.
  - clear Hlist.
    induction Hall as [|ev event evs events Hev _ IH]; [reflexivity|].
    simpl. rewrite IH. f_equal. apply (parse_nylas_event_id ev _ event Hev).
  - symmetry. apply (Forall2_length Hall).
Qed.

(** X8. One event of the answered page that cannot be normalised makes
    [get_events] raise: none of the other events is returned, and the
    error is logged. *)
Theorem get_events_unreadable_event (self : State) (start : Z)
  (end_ limit : option Z) (evs : list NylasEvent.t) (cursor : option string)
  (w' : World) (ev : NylasEvent.t) (e : Exn) :
  events_list (NylasScheduler.grant_id self) (events_query self start end_ limit)
    (NylasScheduler.nylas self) = (Ok (evs, cursor), w') ->
  In ev evs ->
  parse_nylas_event ev (NylasScheduler.user_timezone self) = Raise e ->
  exists e' self',
    get_events start end_ limit self = (Raise e', self') /\
    NylasScheduler.errors self'
    = NylasScheduler.errors self ++ [mkLog (fetching e') e'].
Proof.
  intros Hlist Hin Hev.
  rewrite get_events_run. cbn zeta. rewrite Hlist.
  destruct (mapR_In_raise
              (fun ev => parse_nylas_event ev (NylasScheduler.user_timezone self))
              evs ev e Hin Hev) as [e' He'].
  rewrite He'. exists e'. eexists. split; reflexivity.
Qed.

(** X9. [get_events] treats an end of 0 and a limit of 0 like absent
    ones: the request then carries no end, respectively the limit 100.
    Every call sends exactly one request, for the configured calendar,
    with recurring events expanded and without page token. *)
Theorem get_events_zero_is_absent (self : State) (start : Z)
  (end_ limit : option Z) :
  get_events start (Some 0) limit self = get_events start None limit self /\
  get_events start end_ (Some 0) self = get_events start end_ None self /\
  exists r self',
    get_events start end_ None self = (r, self') /\
    NylasScheduler.calls self'
    = NylasScheduler.calls self
        ++ [CallList (NylasScheduler.grant_id self)
              (ListEventQueryParams.mk (NylasScheduler.calendar_id self) start
                 (match end_ with
                  | Some 0 => None
                  | _ => end_
                  end)
                 (Some 100) (Some true) None)].
Proof.
  split; [reflexivity|]. split; [reflexivity|].
  rewrite get_events_run. cbn zeta.
  replace (int_or end_ None) with (match end_ with Some 0 => None | _ => end_ end)
    by (destruct end_ as [[| |]|]; reflexivity).
  cbn [int_or].
  destruct (events_list _ _ _) as [[[evs c]|e] w'].
  - destruct (mapR _ evs); eexists; eexists; split; reflexivity.
  - eexists; eexists; split; reflexivity.
Qed.

End SinglePage.

Section ReadOnly.
Context {L : Libraries} {World : Type} {C : Collaborator World}.

Local Abbreviation State := (NylasScheduler.t World).

Lemma untouched_refl (self : State) : untouched self self.
Proof. repeat split. Qed.

Lemma untouched_trans (a b c : State) :
  untouched a b -> untouched b c -> untouched a c.
Proof.
  unfold untouched. intros (H1 & H2 & H3 & H4 & H5 & H6) (K1 & K2 & K3 & K4 & K5 & K6).
  repeat split; congruence.
Qed.

Lemma only_listed_trans (a b c : State) :
  NylasScheduler.grant_id b = NylasScheduler.grant_id a ->
  only_listed a b -> only_listed b c -> only_listed a c.
Proof.
  intros Hg [q1 H1] [q2 H2]. exists (q1 ++ q2).
  rewrite H2, H1, Hg, map_app, app_assoc. reflexivity.
Qed.

Lemma fetch_page_frame (self self' : State) (start end_ : Z)
  (tok : option string) (acc : list Event.t)
  (r : Result (list Event.t * option string)) :
  fetch_page start end_ tok acc self = (r, self') ->
  untouched self self' /\ only_listed self self'.
Proof.
  unfold fetch_page, try_except, bind, lift, ret, nylas_events_list.
  destruct (events_list _ _ _) as [[[evs c]|e] w']; cbn beta iota.
  - cbn [fst snd NylasScheduler.user_timezone sent].
    destruct (mapR _ evs); intros H; inversion H; subst;
      (split; [repeat split | eexists [_]; reflexivity]).
  - intros H; inversion H; subst.
    split; [repeat split | eexists [_]; reflexivity].
Qed.

Lemma fetch_pages_frame (fuel : nat) (start end_ : Z) :
  forall (tok : option string) (acc : list Event.t) (self self' : State)
         (r : Result (list Event.t)),
    fetch_pages fuel start end_ tok acc self = Some (r, self') ->
    untouched self self' /\ only_listed self self'.
Proof.
  induction fuel as [|fuel IH]; intros tok acc self self' r H; [discriminate|].
  cbn [fetch_pages] in H.
  destruct (fetch_page start end_ tok acc self) as [[[acc' next]|e] self1] eqn:Hp.
  - destruct (fetch_page_frame _ _ _ _ _ _ _ Hp) as [Hu Hl].
    destruct (truthy_str next).
    + destruct (IH _ _ _ _ _ H) as [Hu' Hl']. split.
      * exact (untouched_trans _ _ _ Hu Hu').
      * exact (only_listed_trans _ _ _ (proj1 Hu) Hl Hl').
    + inversion H; subst. split; assumption.
  - inversion H; subst. exact (fetch_page_frame _ _ _ _ _ _ _ Hp).
Qed.

(** X10. Listing is read-only for the scheduler: whatever [get_events]
    or [get_all_events] answer, the undo history, the configuration and
    the output are as before, and the only requests sent are listing
    requests; nothing is created or deleted. *)
Theorem listing_is_read_only (self : State) :
  (forall start end_ limit r self',
      get_events start end_ limit self = (r, self') ->
      untouched self self' /\ only_listed self self') /\
  (forall fuel start end_ r self',
      get_all_events fuel start end_ self = Some (r, self') ->
      untouched self self' /\ only_listed self self').
Proof.
  split.
  - intros start end_ limit r self'. rewrite get_events_run. cbn zeta.
    destruct (events_list _ _ _) as [[[evs c]|e] w'].
    + destruct (mapR _ evs); intros H; inversion H; subst;
        (split; [repeat split | eexists [_]; reflexivity]).
    + intros H; inversion H; subst.
      split; [repeat split | eexists [_]; reflexivity].
  - intros fuel start end_ r self'. unfold get_all_events. cbn zeta.
    destruct (fetch_pages fuel start (default_end start end_) None [] self)
      as [[r1 self1]|] eqn:Hrun; [|discriminate].
    destruct (fetch_pages_frame _ _ _ _ _ _ _ _ Hrun) as [Hu [qs Hq]].
    unfold reraised, try_except.
    destruct r1; intros H; inversion H; subst.
    + split; [exact Hu | exists qs; exact Hq].
    + split; [exact Hu | exists qs; exact Hq].
Qed.

(** X11. The loop of [get_all_events] has no bound on the number of
    pages: against a service that answers every page with a truthy
    cursor, the call makes as many turns as it is given and never
    returns. *)
Theorem get_all_events_unbounded (self : State) (start : Z) (end_ : option Z)
  (Inv : World -> Prop) :
  Inv (NylasScheduler.nylas self) ->
  (forall w tok,
      Inv w ->
      exists evs cursor w' parsed,
        events_list (NylasScheduler.grant_id self)
          (page_query (NylasScheduler.calendar_id self) start
             (default_end start end_) tok) w
        = (Ok (evs, cursor), w') /\
        truthy_str cursor = true /\
        mapR (fun ev => parse_nylas_event ev (NylasScheduler.user_timezone self))
             evs = Ok parsed /\
        Inv w') ->
  forall fuel, get_all_events fuel start end_ self = None.
Proof.
  intros Hinv Hstep fuel. unfold get_all_events. cbn zeta.
  assert (Hloop :
            forall fuel tok acc (s : State),
              Inv (NylasScheduler.nylas s) ->
              NylasScheduler.grant_id s = NylasScheduler.grant_id self ->
              NylasScheduler.calendar_id s = NylasScheduler.calendar_id self ->
              NylasScheduler.user_timezone s = NylasScheduler.user_timezone self ->
              fetch_pages fuel start (default_end start end_) tok acc s = None).
  { clear fuel. induction fuel as [|fuel IH]; intros tok acc s Hs Hg Hc Hz;
      [reflexivity|].
    destruct (Hstep _ tok Hs) as (evs & cursor & w' & parsed & Hl & Ht & Hp & Hw).
    cbn [fetch_pages].
    rewrite <- Hg, <- Hc in Hl. rewrite <- Hz in Hp.
    rewrite (fetch_page_ok s start _ tok cursor acc evs parsed w' Hl Hp), Ht.
    apply IH; assumption. }
  rewrite (Hloop fuel None [] self Hinv eq_refl eq_refl eq_refl). reflexivity.
Qed.

End ReadOnly.

Lemma get_all_events_unbounded_witness :
  get_all_events (L := Mock.libraries) (C := Mock.endless) 1000000 0 None
    Mock.endless_scheduler = None.
Proof.
  apply (get_all_events_unbounded (L := Mock.libraries) (C := Mock.endless)
           Mock.endless_scheduler 0 None (fun _ => True) I).
  intros w tok _.
  exists [], (Some ("page-" +++ str_of_Z (Z.of_nat w))), (S w), [].
  repeat split.
Defined.

Lemma get_events_first_page_in_order_witness :
  exists self',
    get_events (L := Mock.libraries) (C := Mock.collaborator) 0 None None
      (Mock.scheduler Mock.january 0)
    = (Ok [Mock.timed_event "a" "Stand-up" 1000], self') /\
    List.length (NylasScheduler.calls self') = 1%nat.
Proof.
  assert (Hall : Forall2
                   (fun ev event =>
                      parse_nylas_event (L := Mock.libraries) ev "UTC" = Ok event)
                   [Mock.timed "a" "Stand-up" 1000]
                   [Mock.timed_event "a" "Stand-up" 1000]).
  { constructor; [reflexivity | constructor]. }
  destruct (get_events_first_page_in_order
              (L := Mock.libraries) (C := Mock.collaborator)
              (Mock.scheduler Mock.january 0) 0 None None
              [Mock.timed "a" "Stand-up" 1000] (Some "1") Mock.january
              [Mock.timed_event "a" "Stand-up" 1000] eq_refl Hall)
    as [Hrun _].
  eexists. split; [exact Hrun | reflexivity].
Defined.

Lemma get_events_unreadable_event_witness :
  exists e' self',
    get_events (L := Mock.libraries) (C := Mock.collaborator) 0 None None
      (Mock.scheduler Mock.spoiled 0) = (Raise e', self').
Proof.
  destruct (get_events_unreadable_event
              (L := Mock.libraries) (C := Mock.collaborator)
              (Mock.scheduler Mock.spoiled 0) 0 None None
              (Mock.stored Mock.spoiled) None Mock.spoiled
              (Mock.misplaced "x" "Landing" 2000)
              (InvalidTimezone "Mars/Olympus")
              eq_refl (or_intror (or_introl eq_refl)) eq_refl)
    as (e' & self' & Hrun & _).
  exists e', self'. exact Hrun.
Defined.

Lemma listing_is_read_only_witness :
  NylasScheduler.action_history
    (snd (get_events (L := Mock.libraries) (C := Mock.collaborator) 0 None None
            (Mock.scheduler_with [ActionHistoryEntry.mk "create" "a" None]
               Mock.january)))
  = [ActionHistoryEntry.mk "create" "a" None].
Proof.
  destruct (proj1 (listing_is_read_only
                     (L := Mock.libraries) (C := Mock.collaborator)
                     (Mock.scheduler_with [ActionHistoryEntry.mk "create" "a" None]
                        Mock.january))
              0 None None _ _ (surjective_pairing _))
    as [(_ & _ & _ & Hh & _) _].
  exact Hh.
Defined.

(* ================================================================== *)
(** * Further properties: the windows of the coming days *)

Lemma add_days_timestamp (n : Z) (d : Pendulum.DateTime) (offset : Z) :
  fixed_offset (Pendulum.tz d) offset ->
  Pendulum.int_timestamp (Pendulum.add_days n d)
  = Pendulum.int_timestamp d + 86400 * n.
Proof.
  intros H. unfold Pendulum.int_timestamp.
  rewrite (add_days_instant n d offset H).
  change Pendulum.US_PER_DAY with 86400000000.
  change Pendulum.US_PER_SECOND with 1000000.
  generalize (Pendulum.instant d). intros i.
  Z.to_euclidean_division_equations. lia.
Qed.

Lemma start_of_day_tz (d : Pendulum.DateTime) :
  Pendulum.tz (Pendulum.start_of_day d) = Pendulum.tz d.
Proof. reflexivity. Qed.

Lemma start_of_day_midnight (d : Pendulum.DateTime) (offset : Z) :
  fixed_offset (Pendulum.tz d) offset ->
  (Pendulum.int_timestamp (Pendulum.start_of_day d) + offset) mod 86400 = 0.
Proof.
  intros H. rewrite (start_of_day_timestamp _ _ H).
  generalize (Pendulum.wall d / 86400000000).
  intros q. Z.to_euclidean_division_equations. lia.
Qed.

Section ComingDays.
Context {L : Libraries} {World : Type} {C : Collaborator World}.

Local Abbreviation State := (NylasScheduler.t World).

(** X12. With a known configured zone, the queries for the next three
    days and for the next week hand [get_events] a window that starts at
    the midnight beginning the current day in that zone and ends at the
    instant the zone gives to the wall-clock midnight 3 respectively 7
    days later (the midnight of today occurring once in the zone): the
    days are counted on the wall clock, not in seconds. In a zone of one
    offset that is exactly 3 respectively 7 times 86400 seconds after
    the start. With an unknown zone name these queries and the query for
    today raise before anything is sent, and outside every [try]:
    nothing is logged. *)
Theorem coming_days_windows (self : State) :
  (forall z,
      timezone (NylasScheduler.user_timezone self) = Some z ->
      let now := Pendulum.mkDateTime (NylasScheduler.clock self) z in
      let today := Pendulum.int_timestamp (Pendulum.start_of_day now) in
      occurs_once z (local_midnight now) ->
      Pendulum.wall (Pendulum.start_of_day now) = local_midnight now /\
      get_next_three_days_events self
      = get_events today
          (Some (Pendulum.int_timestamp
                   (Pendulum.of_wall
                      (local_midnight now + 3 * Pendulum.US_PER_DAY) z)))
          None self /\
      get_next_week_events self
      = get_events today
          (Some (Pendulum.int_timestamp
                   (Pendulum.of_wall
                      (local_midnight now + 7 * Pendulum.US_PER_DAY) z)))
          None self) /\
  (forall z offset,
      timezone (NylasScheduler.user_timezone self) = Some z ->
      fixed_offset z offset ->
      let today :=
        Pendulum.int_timestamp
          (Pendulum.start_of_day
             (Pendulum.mkDateTime (NylasScheduler.clock self) z)) in
      get_next_three_days_events self
      = get_events today (Some (today + 259200)) None self /\
      get_next_week_events self
      = get_events today (Some (today + 604800)) None self /\
      (today + offset) mod 86400 = 0) /\
  (timezone (NylasScheduler.user_timezone self) = None ->
   let failed :=
     (@Raise (list Event.t) (InvalidTimezone (NylasScheduler.user_timezone self)),
      self) in
   get_todays_events None self = failed /\
   get_next_three_days_events self = failed /\
   get_next_week_events self = failed).
Proof.
  split; [|split].
  - intros z Hz now today [_ Hex]. subst now today.
    assert (Hw : Pendulum.wall
                   (Pendulum.start_of_day
                      (Pendulum.mkDateTime (NylasScheduler.clock self) z))
                 = local_midnight
                     (Pendulum.mkDateTime (NylasScheduler.clock self) z))
      by exact Hex.
    split; [exact Hw|]. split.
    + unfold get_next_three_days_events, bind, now, resolve. rewrite Hz.
      cbn [bindR]. unfold Pendulum.add_days. rewrite Hw. reflexivity.
    + unfold get_next_week_events, bind, now, resolve, Pendulum.add_weeks.
      rewrite Hz. cbn [bindR]. unfold Pendulum.add_days. rewrite Hw.
      reflexivity.
  - intros z offset Hz Hfix today. subst today.
    assert (Hd : fixed_offset
                   (Pendulum.tz
                      (Pendulum.start_of_day
                         (Pendulum.mkDateTime (NylasScheduler.clock self) z)))
                   offset) by exact Hfix.
    split; [|split].
    + unfold get_next_three_days_events, bind, now, resolve. rewrite Hz.
      cbn [bindR]. rewrite (add_days_timestamp _ _ _ Hd). reflexivity.
    + unfold get_next_week_events, bind, now, resolve, Pendulum.add_weeks.
      rewrite Hz. cbn [bindR]. rewrite (add_days_timestamp _ _ _ Hd).
      reflexivity.
    + apply start_of_day_midnight. exact Hfix.
  - intros Hz failed. subst failed.
    unfold get_todays_events, get_next_three_days_events, get_next_week_events,
      bind, now, resolve.
    rewrite Hz. repeat split.
Qed.

End ComingDays.

Lemma coming_days_windows_witness :
  (get_next_three_days_events (L := Mock.libraries) (C := Mock.collaborator)
     (Mock.new_york Mock.january Mock.eve_of_spring_forward)
   = get_events (L := Mock.libraries) (C := Mock.collaborator)
       1678510800 (Some 1678766400) None
       (Mock.new_york Mock.january Mock.eve_of_spring_forward) /\
   get_next_week_events (L := Mock.libraries) (C := Mock.collaborator)
     (Mock.new_york Mock.january Mock.eve_of_spring_forward)
   = get_events (L := Mock.libraries) (C := Mock.collaborator)
       1678510800 (Some 1679112000) None
       (Mock.new_york Mock.january Mock.eve_of_spring_forward)) /\
  get_next_week_events (L := Mock.libraries) (C := Mock.collaborator)
    (Mock.scheduler Mock.january (100000 * Pendulum.US_PER_SECOND))
  = get_events (L := Mock.libraries) (C := Mock.collaborator)
      86400 (Some 691200) None
      (Mock.scheduler Mock.january (100000 * Pendulum.US_PER_SECOND)) /\
  get_todays_events (L := Mock.libraries) (C := Mock.collaborator) None
    (NylasScheduler.mk Mock.january "grant" "Mars/Olympus" "primary" [] 0 [] [] [])
  = (Raise (InvalidTimezone "Mars/Olympus"),
     NylasScheduler.mk Mock.january "grant" "Mars/Olympus" "primary" [] 0 [] [] []).
Proof.
  split; [|split].
  - exact (proj2 (proj1 (coming_days_windows
                           (L := Mock.libraries) (C := Mock.collaborator)
                           (Mock.new_york Mock.january
                              Mock.eve_of_spring_forward))
                    Mock.America_New_York eq_refl (conj eq_refl eq_refl))).
  - exact (proj1 (proj2 (proj1 (proj2 (coming_days_windows
                                  (L := Mock.libraries) (C := Mock.collaborator)
                                  (Mock.scheduler Mock.january
                                     (100000 * Pendulum.US_PER_SECOND))))
                           Pendulum.UTC 0 eq_refl (conj eq_refl eq_refl)))).
  - exact (proj1 (proj2 (proj2 (coming_days_windows
                           (L := Mock.libraries) (C := Mock.collaborator)
                           (NylasScheduler.mk Mock.january "grant" "Mars/Olympus"
                              "primary" [] 0 [] [] [])))
                    eq_refl)).
Defined.

(* ================================================================== *)
(** * Further properties: what the time normaliser returns *)

Lemma from_timestamp_in_tz (t : Z) (z : Pendulum.Timezone) :
  Pendulum.int_timestamp (Pendulum.in_tz (Pendulum.from_timestamp t) z) = t.
Proof.
  unfold Pendulum.int_timestamp, Pendulum.in_tz, Pendulum.from_timestamp.
  cbn [Pendulum.instant]. change Pendulum.US_PER_SECOND with 1000000.
  apply Z.div_mul. discriminate.
Qed.

Lemma local_midnight_whole (d : Pendulum.DateTime) :
  local_midnight d mod Pendulum.US_PER_DAY = 0.
Proof.
  unfold local_midnight. change Pendulum.US_PER_DAY with 86400000000.
  generalize (Pendulum.wall d). intros w.
  Z.to_euclidean_division_equations. lia.
Qed.

(** The day of a date-time ends when the day of its midnight ends, the
    midnight occurring once in the zone. *)
Lemma end_of_start_of_day (d : Pendulum.DateTime) :
  occurs_once (Pendulum.tz d) (local_midnight d) ->
  Pendulum.end_of_day (Pendulum.start_of_day d) = Pendulum.end_of_day d.
Proof.
  intros [_ H]. unfold Pendulum.end_of_day at 1.
  rewrite start_of_day_tz.
  assert (Hw : Pendulum.wall (Pendulum.start_of_day d) = local_midnight d)
    by exact H.
  rewrite Hw, local_midnight_whole, Z.sub_0_r. reflexivity.
Qed.

Lemma end_of_day_last_second (d : Pendulum.DateTime) (offset : Z) :
  fixed_offset (Pendulum.tz d) offset ->
  (Pendulum.int_timestamp (Pendulum.end_of_day d) + offset + 1) mod 86400 = 0.
Proof.
  intros H.
  rewrite (end_of_day_timestamp _ _ H), (start_of_day_timestamp _ _ H).
  generalize (Pendulum.wall d / 86400000000).
  intros q. Z.to_euclidean_division_equations. lia.
Qed.

Section Normalised.
Context {L : Libraries}.

(** The zone an instant is shown in: the one named by the event, or the
    zone of the host when the event names none. *)
Lemma in_timezone_instant (t : Z) (name : option string) (d : Pendulum.DateTime) :
  in_timezone (Pendulum.from_timestamp t) name = Ok d ->
  Pendulum.int_timestamp d = t /\
  match name with
  | None => Pendulum.tz d = local_timezone
  | Some n => timezone n = Some (Pendulum.tz d)
  end.
Proof.
  destruct name as [n|]; cbn [in_timezone]; unfold resolve.
  - destruct (timezone n) as [z|]; cbn [bindR]; intros H; inversion H.
    split; [apply from_timestamp_in_tz | reflexivity].
  - intros H; inversion H. split; [apply from_timestamp_in_tz | reflexivity].
Qed.

(** X13. For an instant and for a time span the normaliser keeps the
    timestamps to the second and shows each in the zone the event itself
    names (the zone of the host when it names none): the target zone
    plays no part, any two target zones give the same result. An instant
    has start and end equal. *)
Theorem parse_when_keeps_instants (user_timezone : string) :
  (forall t z s e a,
      parse_when (Time t z) user_timezone = Ok (s, e, a) ->
      exists d,
        s = Some d /\ e = Some d /\ Pendulum.int_timestamp d = t /\
        match z with
        | None => Pendulum.tz d = local_timezone
        | Some n => timezone n = Some (Pendulum.tz d)
        end) /\
  (forall ts te zs ze s e a,
      parse_when (Timespan ts te zs ze) user_timezone = Ok (s, e, a) ->
      exists ds de,
        s = Some ds /\ e = Some de /\
        Pendulum.int_timestamp ds = ts /\ Pendulum.int_timestamp de = te /\
        match zs with
        | None => Pendulum.tz ds = local_timezone
        | Some n => timezone n = Some (Pendulum.tz ds)
        end /\
        match ze with
        | None => Pendulum.tz de = local_timezone
        | Some n => timezone n = Some (Pendulum.tz de)
        end) /\
  (forall w other_timezone,
      date_based w = false ->
      parse_when w other_timezone = parse_when w user_timezone).
Proof.
  split; [|split].
  - intros t z s e a H. cbn [parse_when] in H.
    destruct (in_timezone (Pendulum.from_timestamp t) z) as [d|x] eqn:Hd;
      cbn [bindR] in H; inversion H; subst.
    exists d. destruct (in_timezone_instant t z d Hd). auto.
  - intros ts te zs ze s e a H. cbn [parse_when] in H.
    destruct (in_timezone (Pendulum.from_timestamp ts) zs) as [ds|x] eqn:Hs;
      cbn [bindR] in H; [|discriminate].
    destruct (in_timezone (Pendulum.from_timestamp te) ze) as [de|x] eqn:He;
      cbn [bindR] in H; inversion H; subst.
    exists ds, de.
    destruct (in_timezone_instant ts zs ds Hs).
    destruct (in_timezone_instant te ze de He). auto 6.
  - intros w other H. destruct w; try discriminate; reflexivity.
Qed.

(** X14. A date is normalised to one whole day on the wall clock of the
    zone it was parsed in: the start is the instant of 00:00:00 of that
    date and the end the instant of 23:59:59.999999 of the same date
    (the midnight occurring once in the zone), however many seconds lie
    between them. In a zone of one offset the start lies on a midnight
    and the end 86399 seconds later. A date span runs from the instant
    of 00:00:00 of its first date to that of 23:59:59.999999 of its
    last, and a span from a date to the same date is normalised exactly
    like that date. *)
Theorem parse_when_whole_days (user_timezone : string) :
  (forall d s e a,
      parse_when (Date d) user_timezone = Ok (s, e, a) ->
      exists x ds de,
        pendulum_parse d user_timezone = Ok x /\
        s = Some ds /\ e = Some de /\
        ds = Pendulum.of_wall (local_midnight x) (Pendulum.tz x) /\
        Pendulum.tz de = Pendulum.tz x /\
        (occurs_once (Pendulum.tz x) (local_midnight x) ->
         Pendulum.wall ds = local_midnight x /\
         de = Pendulum.of_wall
                (local_midnight x + (Pendulum.US_PER_DAY - 1)) (Pendulum.tz x)) /\
        (forall offset,
            fixed_offset (Pendulum.tz x) offset ->
            (Pendulum.int_timestamp ds + offset) mod 86400 = 0 /\
            Pendulum.int_timestamp de = Pendulum.int_timestamp ds + 86399)) /\
  (forall d1 d2 s e a,
      parse_when (Datespan d1 d2) user_timezone = Ok (s, e, a) ->
      exists x y ds de,
        pendulum_parse d1 user_timezone = Ok x /\
        pendulum_parse d2 user_timezone = Ok y /\
        s = Some ds /\ e = Some de /\
        ds = Pendulum.of_wall (local_midnight x) (Pendulum.tz x) /\
        de = Pendulum.of_wall
               (local_midnight y + (Pendulum.US_PER_DAY - 1)) (Pendulum.tz y) /\
        (forall offset,
            fixed_offset (Pendulum.tz x) offset ->
            (Pendulum.int_timestamp ds + offset) mod 86400 = 0) /\
        (forall offset,
            fixed_offset (Pendulum.tz y) offset ->
            (Pendulum.int_timestamp de + offset + 1) mod 86400 = 0)) /\
  (forall d,
      (forall x,
          pendulum_parse d user_timezone = Ok x ->
          occurs_once (Pendulum.tz x) (local_midnight x)) ->
      parse_when (Datespan d d) user_timezone = parse_when (Date d) user_timezone).
Proof.
  split; [|split].
  - intros d s e a H. cbn [parse_when] in H.
    destruct (pendulum_parse d user_timezone) as [x|x]; cbn [bindR] in H;
      inversion H; subst.
    exists x, (Pendulum.start_of_day x),
           (Pendulum.end_of_day (Pendulum.start_of_day x)).
    split; [reflexivity|]. split; [reflexivity|]. split; [reflexivity|].
    split; [reflexivity|]. split; [reflexivity|]. split.
    + intros Hex. split; [exact (proj2 Hex)|].
      rewrite (end_of_start_of_day x Hex). reflexivity.
    + intros offset Hfix. split.
      * apply (start_of_day_midnight x offset Hfix).
      * rewrite (end_of_start_of_day x
                   (fixed_occurs_once _ offset _ Hfix)).
        apply (end_of_day_timestamp x offset Hfix).
  - intros d1 d2 s e a H. cbn [parse_when] in H.
    destruct (pendulum_parse d1 user_timezone) as [x|x]; cbn [bindR] in H;
      [|discriminate].
    destruct (pendulum_parse d2 user_timezone) as [y|y]; cbn [bindR] in H;
      inversion H; subst.
    exists x, y, (Pendulum.start_of_day x), (Pendulum.end_of_day y).
    split; [reflexivity|]. split; [reflexivity|]. split; [reflexivity|].
    split; [reflexivity|]. split; [reflexivity|]. split; [reflexivity|].
    split.
    + intros offset Hfix. apply (start_of_day_midnight x offset Hfix).
    + intros offset Hfix. apply (end_of_day_last_second y offset Hfix).
  - intros d Hex. cbn [parse_when].
    destruct (pendulum_parse d user_timezone) as [x|x]; cbn [bindR];
      [|reflexivity].
    now rewrite (end_of_start_of_day x (Hex x eq_refl)).
Qed.

End Normalised.

Lemma parse_when_keeps_instants_witness :
  exists d,
    parse_when (L := Mock.libraries)
      (Time 1697364000 (Some "America/New_York")) "Europe/Paris"
    = Ok (Some d, Some d, false) /\
    Pendulum.int_timestamp d = 1697364000 /\
    Pendulum.tz_name (Pendulum.tz d) = "America/New_York".
Proof.
  destruct (proj1 (parse_when_keeps_instants (L := Mock.libraries) "Europe/Paris")
              1697364000 (Some "America/New_York") _ _ _ eq_refl)
    as (d & Hs & _ & Ht & Hz).
  exists d. inversion Hs; subst d. repeat split.
Defined.

Lemma parse_when_whole_days_witness :
  (exists ds de,
      parse_when (L := Mock.libraries) (Date "2023-03-12") "America/New_York"
      = Ok (Some ds, Some de, true) /\
      Pendulum.int_timestamp ds = 1678597200 /\
      Pendulum.int_timestamp de = 1678679999) /\
  (exists ds de,
      parse_when (L := Mock.libraries) (Date "2023-10-15") "UTC"
      = Ok (Some ds, Some de, true) /\
      Pendulum.int_timestamp ds = 1697328000 /\
      Pendulum.int_timestamp de = Pendulum.int_timestamp ds + 86399) /\
  parse_when (L := Mock.libraries) (Datespan "2023-03-12" "2023-03-12")
    "America/New_York"
  = parse_when (L := Mock.libraries) (Date "2023-03-12") "America/New_York".
Proof.
  split; [|split].
  - destruct (proj1 (parse_when_whole_days (L := Mock.libraries)
                       "America/New_York")
                "2023-03-12" _ _ _ eq_refl)
      as (x & ds & de & Hx & Hs & He & _ & _ & Hex & _).
    injection Hx as <-. destruct (Hex (conj eq_refl eq_refl)) as [_ Hde].
    exists ds, de. injection Hs as <-. subst de.
    repeat split.
  - destruct (proj1 (parse_when_whole_days (L := Mock.libraries) "UTC")
                "2023-10-15" _ _ _ eq_refl)
      as (x & ds & de & Hx & Hs & He & _ & _ & _ & Hfix).
    injection Hx as <-.
    destruct (Hfix 0 (conj eq_refl eq_refl)) as [_ Hde].
    exists ds, de. injection Hs as <-. injection He as <-.
    split; [reflexivity|]. split; [reflexivity | exact Hde].
  - apply (proj2 (proj2 (parse_when_whole_days (L := Mock.libraries)
                           "America/New_York")) "2023-03-12").
    intros x Hx. injection Hx as <-. split; reflexivity.
Defined.

(* ================================================================== *)
(** * Further properties: the translator *)

(** Rounding to the nearest moves a quotient up by one at most, and
    only from the half on. *)
Lemma round_half_even_near (a b : Z) :
  0 < b ->
  Pendulum.round_half_even a b = a / b \/
  (Pendulum.round_half_even a b = a / b + 1 /\ b <= 2 * (a mod b)).
Proof.
  intros Hb. unfold Pendulum.round_half_even.
  destruct (Z.ltb_spec (2 * (a mod b)) b); [now left|].
  destruct (Z.ltb_spec b (2 * (a mod b))); [right; split; [reflexivity|lia]|].
  destruct (Z.even (a / b)); [now left | right; split; [reflexivity | lia]].
Qed.

(** Up to 2^34 seconds (2514-05-30T01:53:04Z) the doubles lie less than
    two microseconds apart, and the float timestamp truncates to the
    whole seconds of the instant. *)
Lemma truncated_seconds_exact (us : Z) :
  0 <= us < 17179869184 * 1000000 ->
  Pendulum.truncated_seconds us = us / 1000000.
Proof.
  intros Hus. unfold Pendulum.truncated_seconds.
  change Pendulum.US_PER_SECOND with 1000000.
  destruct (Z.ltb_spec us 1000000) as [Hs|Hs].
  - symmetry. apply Z.div_small. lia.
  - assert (Hq : 1 <= us / 1000000 < 2 ^ 34).
    { change (2 ^ 34) with 17179869184. split.
      - apply Z.div_le_lower_bound; lia.
      - apply Z.div_lt_upper_bound; lia. }
    assert (He : 0 <= Z.log2 (us / 1000000) < 34).
    { split; [apply Z.log2_nonneg|]. apply Z.log2_lt_pow2; lia. }
    destruct (Z.leb_spec (Z.log2 (us / 1000000)) 52) as [_|Hbig]; [|lia].
    assert (HP : 524288 <= 2 ^ (52 - Z.log2 (us / 1000000))).
    { change 524288 with (2 ^ 19). apply Z.pow_le_mono_r; lia. }
    remember (2 ^ (52 - Z.log2 (us / 1000000))) as P eqn:EP. clear EP He.
    pose proof (Z.div_mod us 1000000 ltac:(lia)) as Hdm.
    pose proof (Z.mod_pos_bound us 1000000 ltac:(lia)) as Hf.
    pose proof (Z.div_mod (us * P) 1000000 ltac:(lia)) as HDM.
    pose proof (Z.mod_pos_bound (us * P) 1000000 ltac:(lia)) as HR.
    assert (HA : us * P
                 = 1000000 * (us / 1000000 * P) + us mod 1000000 * P)
      by (rewrite Hdm at 1; ring).
    assert (HB : 0 <= us mod 1000000 * P <= 999999 * P) by nia.
    symmetry.
    apply (Z.div_unique _ P (us / 1000000)
             (Pendulum.round_half_even (us * P) 1000000
              - P * (us / 1000000))); [|ring].
    left.
    destruct (round_half_even_near (us * P) 1000000 ltac:(lia))
      as [Hm|[Hm Hr]]; rewrite Hm; lia.
Qed.

Lemma int_of_timestamp_exact (d : Pendulum.DateTime) :
  0 <= Pendulum.instant d < 17179869184 * Pendulum.US_PER_SECOND ->
  Pendulum.int_of_timestamp d = Pendulum.int_timestamp d.
Proof.
  unfold Pendulum.int_of_timestamp, Pendulum.int_timestamp.
  change Pendulum.US_PER_SECOND with 1000000.
  generalize (Pendulum.instant d). intros i Hi.
  rewrite Z.abs_eq by lia. rewrite (truncated_seconds_exact i Hi).
  destruct (Z.eq_dec i 0) as [->|Hn]; [reflexivity|].
  rewrite Z.sgn_pos by lia. lia.
Qed.

(** From 2^34 seconds on the doubles lie further apart than a
    microsecond: a start at 2514-05-30T01:53:03.999999Z is sent as
    17179869183 and its end, one minute later, as 17179869244. *)
Example int_of_timestamp_far_future :
  Pendulum.int_of_timestamp
    (Pendulum.mkDateTime 17179869183999999 Pendulum.UTC) = 17179869183 /\
  Pendulum.int_of_timestamp
    (Pendulum.add_minutes 1
       (Pendulum.mkDateTime 17179869183999999 Pendulum.UTC)) = 17179869244.
Proof. split; reflexivity. Qed.

Section Outbound.
Context {L : Libraries}.

(** What [pendulum.parse] returned where its result was used as a
    date-time. *)
Lemma pendulum_parse_datetime (text zone : string) (d : Pendulum.DateTime) :
  pendulum_parse text zone = Ok d ->
  pendulum_parse_value text zone = Ok (ADateTime d).
Proof.
  unfold pendulum_parse.
  destruct (pendulum_parse_value text zone) as [[x|class_name zero]|e];
    cbn [bindR datetime_of]; intros H; inversion H. reflexivity.
Qed.

(** X15. What [create_event] asks for, the [when] text being a
    date-time. An input that is not all-day becomes a time span with the
    configured zone on both ends; when its start is not before the epoch,
    its duration not negative and its end before 2^34 seconds after the
    epoch (2514-05-30T01:53:04Z), start and end are the whole seconds of
    their instants and the end is exactly 60 seconds per minute of
    duration after the start. An all-day input becomes the calendar date
    of its start alone: its duration plays no part. The participants are
    the attendees, one per address and in order, and an empty list of
    attendees gives no participants at all. *)
Theorem create_event_request_timing (event_data : EventData.t) (zone : string)
  (start : Pendulum.DateTime) :
  pendulum_parse (EventData.when event_data) zone = Ok start ->
  exists request,
    create_event_request event_data zone = Ok request /\
    (EventData.all_day event_data = true ->
     CreateEventRequest.when request
     = NewWhen (CreateDate (Pendulum.to_date_string start))) /\
    (EventData.all_day event_data = false ->
     exists s e,
       CreateEventRequest.when request = NewWhen (CreateTimespan s e zone zone) /\
       s = Pendulum.int_of_timestamp start /\
       e = Pendulum.int_of_timestamp
             (Pendulum.add_minutes (EventData.duration_minutes event_data) start) /\
       (0 <= Pendulum.instant start ->
        0 <= EventData.duration_minutes event_data ->
        Pendulum.instant start
        + EventData.duration_minutes event_data * 60 * Pendulum.US_PER_SECOND
        < 17179869184 * Pendulum.US_PER_SECOND ->
        s = Pendulum.int_timestamp start /\
        e = s + 60 * EventData.duration_minutes event_data)) /\
    request_emails (CreateEventRequest.participants request)
    = attendee_elements (EventData.attendees event_data) /\
    (attendee_elements (EventData.attendees event_data) = [] ->
     CreateEventRequest.participants request = None).
Proof.
  intros Hparse. unfold create_event_request.
  rewrite (pendulum_parse_datetime _ _ _ Hparse).
  cbn [bindR truthy_parsed negb datetime_of].
  eexists. split; [reflexivity|].
  cbn [CreateEventRequest.when CreateEventRequest.participants].
  split; [|split; [|split]].
  - intros Hday. rewrite Hday. reflexivity.
  - intros Hday. rewrite Hday. eexists. eexists.
    split; [reflexivity|]. split; [reflexivity|]. split; [reflexivity|].
    intros Hi Hm Hend.
    rewrite (int_of_timestamp_exact start) by
      (change Pendulum.US_PER_SECOND with 1000000 in *; lia).
    rewrite (int_of_timestamp_exact
               (Pendulum.add_minutes (EventData.duration_minutes event_data)
                  start)) by
      (unfold Pendulum.add_minutes; cbn [Pendulum.instant];
       change Pendulum.US_PER_SECOND with 1000000 in *; lia).
    split; [reflexivity|].
    unfold Pendulum.int_timestamp, Pendulum.add_minutes.
    cbn [Pendulum.instant]. change Pendulum.US_PER_SECOND with 1000000.
    generalize (Pendulum.instant start) (EventData.duration_minutes event_data).
    intros i m. Z.to_euclidean_division_equations. lia.
  - apply requested_attendees.
  - destruct (EventData.attendees event_data) as [[|a l]|]; cbn;
      try reflexivity; discriminate.
Qed.

(** X16. What [parse_nylas_event] makes of the optional parts of an
    event. Identifier, title and location pass through. The attendees
    are the addresses of the participants in their order; an empty list
    of participants, like an absent one, gives no attendees, and empty
    metadata gives none: a normalised event never carries an empty list
    or an empty mapping. The description is absent exactly when the
    event has none or an empty one. *)
Theorem parse_nylas_event_drops_empties (event : NylasEvent.t) (zone : string)
  (parsed : Event.t) :
  parse_nylas_event event zone = Ok parsed ->
  Event.id parsed = NylasEvent.id event /\
  Some (Event.title parsed) = NylasEvent.title event /\
  Event.location parsed = NylasEvent.location event /\
  attendee_elements (Event.attendees parsed)
  = emails_of (NylasEvent.participants event) /\
  Event.attendees parsed <> Some [] /\
  Event.metadata parsed <> Some [] /\
  (Event.metadata parsed = None \/
   Event.metadata parsed = NylasEvent.metadata event) /\
  (Event.description parsed = None <->
   NylasEvent.description event = None \/
   NylasEvent.description event = Some EmptyString).
Proof.
  unfold parse_nylas_event.
  destruct (parse_when _ _) as [[[s e] a]|x]; cbn [bindR]; [|discriminate].
  destruct (NylasEvent.title event) as [title|] eqn:Ht;
    cbn [required_str bindR]; [|discriminate].
  intros H. inversion H. clear H.
  cbn [Event.id Event.title Event.location Event.attendees Event.metadata
       Event.description].
  repeat split.
  - apply parsed_attendees.
  - destruct (NylasEvent.participants event) as [[|p l]|]; cbn; discriminate.
  - destruct (NylasEvent.metadata event) as [[|p l]|]; cbn; discriminate.
  - destruct (NylasEvent.metadata event) as [[|p l]|]; cbn; auto.
  - unfold html_to_plain_text.
    destruct (NylasEvent.description event) as [[|c h]|]; cbn; auto.
    discriminate.
  - unfold html_to_plain_text.
    destruct (NylasEvent.description event) as [[|c h]|]; cbn; auto.
    intros [H|H]; discriminate.
Qed.

End Outbound.

Lemma create_event_request_timing_witness :
  exists request,
    create_event_request (L := Mock.libraries) Mock.team_meeting "UTC" = Ok request /\
    CreateEventRequest.when request
    = NewWhen (CreateTimespan 1697364000 1697367600 "UTC" "UTC").
Proof.
  destruct (create_event_request_timing (L := Mock.libraries) Mock.team_meeting
              "UTC" (Pendulum.mkDateTime 1697364000000000 Pendulum.UTC) eq_refl)
    as (request & Hreq & _ & Hspan & _).
  exists request. split; [exact Hreq|].
  destruct (Hspan eq_refl) as (s & e & Hw & _ & _ & Hlen).
  destruct Hlen as [Hs He]; [discriminate | discriminate | reflexivity |].
  rewrite Hw, He, Hs. reflexivity.
Defined.

Lemma parse_nylas_event_drops_empties_witness :
  exists parsed,
    parse_nylas_event (L := Mock.libraries)
      (NylasEvent.mk "a" "grant" "primary" (Some "Stand-up")
         (Time 1000 (Some "UTC")) None (Some EmptyString) (Some []) (Some [])
         None None None None None None None) "UTC" = Ok parsed /\
    Event.attendees parsed = None /\
    Event.metadata parsed = None /\
    Event.description parsed = None.
Proof.
  eexists. split; [reflexivity|].
  destruct (parse_nylas_event_drops_empties (L := Mock.libraries)
              (NylasEvent.mk "a" "grant" "primary" (Some "Stand-up")
                 (Time 1000 (Some "UTC")) None (Some EmptyString) (Some [])
                 (Some []) None None None None None None None) "UTC" _ eq_refl)
    as (_ & _ & _ & _ & _ & _ & _ & Hd).
  split; [reflexivity|]. split; [reflexivity|].
  apply Hd. right. reflexivity.
Defined.

(* ================================================================== *)
(** * Further properties: the threshold of the fuzzy search *)

Section Threshold.
Variable A : Type.
Variable key : A -> Z.
Variable keep : A -> bool.

Lemma insert_reverse_front (x : A) (l : list A) :
  Forall (fun y => key y <= key x) l -> insert_reverse key x l = x :: l.
Proof.
  destruct 1 as [|y l Hy _]; [reflexivity|].
  simpl. destruct (Z.leb_spec (key y) (key x)); [reflexivity | lia].
Qed.

Lemma filter_insert_reverse (x : A) (l : list A) :
  StronglySorted (descending key) l ->
  filter keep (insert_reverse key x l)
  = if keep x then insert_reverse key x (filter keep l) else filter keep l.
Proof.
  induction 1 as [|y l Hs IH Hy]; simpl.
  - destruct (keep x); reflexivity.
  - destruct (Z.leb_spec (key y) (key x)) as [Hle|Hgt].
    + simpl. destruct (keep x); [|reflexivity].
      symmetry. apply insert_reverse_front.
      assert (Hall : Forall (fun z => key z <= key x) (y :: l)).
      { constructor; [exact Hle|].
        eapply Forall_impl; [|exact Hy]. unfold descending. intros z Hz. lia. }
      change (if keep y then y :: filter keep l else filter keep l)
        with (filter keep (y :: l)).
      apply Forall_forall. intros z Hz. apply filter_In in Hz.
      exact (proj1 (Forall_forall _ _) Hall z (proj1 Hz)).
    + simpl. rewrite IH. destruct (keep y); destruct (keep x); try reflexivity.
      simpl. destruct (Z.leb_spec (key y) (key x)); [lia | reflexivity].
Qed.

(** A stable sort commutes with filtering. *)
Lemma filter_sort_reverse (l : list A) :
  filter keep (sort_reverse key l) = sort_reverse key (filter keep l).
Proof.
  induction l as [|x l IH]; [reflexivity|].
  simpl sort_reverse at 1.
  rewrite filter_insert_reverse by apply sort_reverse_sorted.
  simpl. rewrite IH. destruct (keep x); reflexivity.
Qed.

End Threshold.

Lemma filter_filter_implied {A} (p q : A -> bool) (l : list A) :
  (forall x, q x = true -> p x = true) ->
  filter q (filter p l) = filter q l.
Proof.
  intros H. induction l as [|x l IH]; [reflexivity|].
  simpl. destruct (p x) eqn:Hp; simpl.
  - now rewrite IH.
  - destruct (q x) eqn:Hq; [|exact IH].
    rewrite (H x Hq) in Hp. discriminate.
Qed.

Section Narrowing.
Context {L : Libraries}.

(** X17. Raising the threshold only removes results: the answer of
    [fuzzy_search_events] at a higher threshold is its answer at a lower
    one without the events that score below the higher threshold, the
    others keeping their places. The search of no events finds none. *)
Theorem fuzzy_search_narrows (events : list Event.t) (search_query : string)
  (lower_threshold higher_threshold : Z) :
  lower_threshold <= higher_threshold ->
  fuzzy_search_events events search_query higher_threshold
  = filter (fun e => higher_threshold <=? similarity search_query e)
      (fuzzy_search_events events search_query lower_threshold) /\
  fuzzy_search_events [] search_query lower_threshold = [].
Proof.
  intros Hle. split; [|reflexivity].
  unfold fuzzy_search_events.
  rewrite filter_sort_reverse, filter_filter_implied; [reflexivity|].
  intros e He. apply Z.leb_le in He. apply Z.leb_le. lia.
Qed.

End Narrowing.

Lemma fuzzy_search_narrows_witness :
  fuzzy_search_events (L := Mock.libraries)
    [Mock.event "1" "Team Sync"; Mock.event "2" "Sunday"; Mock.event "3" "Sync Meeting"]
    "sync" 80
  = filter (fun e => 80 <=? similarity (L := Mock.libraries) "sync" e)
      (fuzzy_search_events (L := Mock.libraries)
         [Mock.event "1" "Team Sync"; Mock.event "2" "Sunday";
          Mock.event "3" "Sync Meeting"] "sync" 40).
Proof.
  apply (fuzzy_search_narrows (L := Mock.libraries)
           [Mock.event "1" "Team Sync"; Mock.event "2" "Sunday";
            Mock.event "3" "Sync Meeting"] "sync" 40 80).
  discriminate.
Defined.

(* ================================================================== *)
(** * Further properties: the cleanup *)

Lemma subtract_days_tz (n : Z) (d : Pendulum.DateTime) :
  Pendulum.tz (Pendulum.subtract_days n d) = Pendulum.tz d.
Proof. reflexivity. Qed.

Lemma add_years_tz (n : Z) (d : Pendulum.DateTime) :
  Pendulum.tz (Pendulum.add_years n d) = Pendulum.tz d.
Proof.
  unfold Pendulum.add_years.
  destruct (Pendulum.civil_from_days (Pendulum.wall d / Pendulum.US_PER_DAY))
    as [[y m] dd].
  reflexivity.
Qed.

Section CleanupRuns.
Context {L : Libraries} {World : Type} {C : Collaborator World}.

Local Abbreviation State := (NylasScheduler.t World).

Local Abbreviation deleting :=
  (by_class "Nylas API error while deleting event"
            "Nylas OAuth error while deleting event"
            "Timeout error while deleting event"
            "Unexpected error while deleting event").

(** [cleanup_calendar] lists its window and goes on from the answer. *)
Lemma cleanup_calendar_run (fuel : nat) (days_to_keep : Z) (self : State) :
  cleanup_calendar fuel days_to_keep self
  = match get_all_events fuel (cleanup_start self)
            (Some (cleanup_end days_to_keep self)) self with
    | None => None
    | Some (Raise e, self1) =>
        Some (Raise e, logger_error "Error during calendar cleanup" e self1)
    | Some (Ok events_to_delete, self1) =>
        match delete_each events_to_delete self1 with
        | (Ok _, self2) =>
            Some (Ok tt,
                  print ("Cleanup complete. Deleted " +++
                         str_of_len events_to_delete +++ " events.") self2)
        | (Raise e, self2) =>
            Some (Raise e, logger_error "Error during calendar cleanup" e self2)
        end
    end.
Proof.
  unfold cleanup_calendar, cleanup_start, cleanup_end. cbn zeta.
  destruct (get_all_events _ _ _ _) as [[[evs|e] self1]|]; [| |reflexivity].
  - unfold try_except, bind.
    destruct (delete_each evs self1) as [[u|e] self2]; reflexivity.
  - reflexivity.
Qed.

Lemma get_all_events_frame (fuel : nat) (start : Z) (end_ : option Z)
  (self self' : State) (r : Result (list Event.t)) :
  get_all_events fuel start end_ self = Some (r, self') ->
  untouched self self' /\ only_listed self self' /\
  (forall events, r = Ok events ->
                  NylasScheduler.errors self' = NylasScheduler.errors self).
Proof.
  unfold get_all_events. cbn zeta.
  generalize (default_end start end_). intros stop.
  assert (Hloop :
            forall fuel tok acc (s s' : State) r,
              fetch_pages fuel start stop tok acc s = Some (r, s') ->
              forall events, r = Ok events ->
                NylasScheduler.errors s' = NylasScheduler.errors s).
  { clear. induction fuel as [|fuel IH]; intros tok acc s s' r H events Hr;
      [discriminate|].
    cbn [fetch_pages] in H.
    destruct (fetch_page start stop tok acc s) as [[[acc' next]|e] s1] eqn:Hp.
    - assert (Hs1 : NylasScheduler.errors s1 = NylasScheduler.errors s).
      { unfold fetch_page, try_except, bind, lift, ret, nylas_events_list in Hp.
        destruct (events_list _ _ _) as [[[evs c]|e] w']; cbn beta iota in Hp;
          [|discriminate].
        cbn [fst snd NylasScheduler.user_timezone sent] in Hp.
        destruct (mapR _ evs); inversion Hp. reflexivity. }
      destruct (truthy_str next).
      + rewrite (IH _ _ _ _ _ H events Hr). exact Hs1.
      + inversion H; subst. exact Hs1.
    - inversion H; subst. discriminate. }
  destruct (fetch_pages fuel start stop None [] self) as [[r1 self1]|] eqn:Hrun;
    [|discriminate].
  destruct (fetch_pages_frame _ _ _ _ _ _ _ _ Hrun) as [Hu Hq].
  unfold reraised, try_except.
  destruct r1 as [events|e]; intros H; inversion H; subst.
  - split; [exact Hu|]. split; [exact Hq|].
    intros ev _. exact (Hloop _ _ _ _ _ _ Hrun events eq_refl).
  - split; [exact Hu|]. split; [exact Hq|]. intros ev Hev. discriminate.
Qed.

(** X18. When the listing fails, [cleanup_calendar] raises the same
    exception without having looked up or deleted anything and without
    printing a line; when the listing does not come to an end, neither
    does the cleanup. *)
Theorem cleanup_stops_when_listing_fails (fuel : nat) (days_to_keep : Z)
  (self : State) :
  (forall e self1,
      get_all_events fuel (cleanup_start self)
        (Some (cleanup_end days_to_keep self)) self = Some (Raise e, self1) ->
      exists self',
        cleanup_calendar fuel days_to_keep self = Some (Raise e, self') /\
        untouched self self' /\ only_listed self self' /\
        NylasScheduler.nylas self' = NylasScheduler.nylas self1) /\
  (get_all_events fuel (cleanup_start self)
     (Some (cleanup_end days_to_keep self)) self = None ->
   cleanup_calendar fuel days_to_keep self = None).
Proof.
  split.
  - intros e self1 H. rewrite cleanup_calendar_run, H.
    destruct (get_all_events_frame _ _ _ _ _ _ H) as (Hu & Hq & _).
    eexists. split; [reflexivity|]. split; [exact Hu|]. split; [exact Hq|].
    reflexivity.
  - intros H. rewrite cleanup_calendar_run, H. reflexivity.
Qed.



End CleanupRuns.

Section CleanupBounds.
Context {World : Type}.

(** X20. The window [cleanup_calendar] lists: it starts on a midnight
    and ends on the last second of a day, both in UTC. With at least one
    day to keep it ends before the current second, so nothing that lies
    ahead is listed for deletion. With zero days to keep, or a negative
    number, which is not rejected, it ends at or after the current
    second: events later today are listed as well. *)
Theorem cleanup_window_bounds (days_to_keep : Z) (self : NylasScheduler.t World) :
  cleanup_start self mod 86400 = 0 /\
  (cleanup_end days_to_keep self + 1) mod 86400 = 0 /\
  (1 <= days_to_keep ->
   cleanup_end days_to_keep self < Pendulum.int_timestamp (now_utc self)) /\
  (days_to_keep <= 0 ->
   Pendulum.int_timestamp (now_utc self) <= cleanup_end days_to_keep self).
Proof.
  unfold cleanup_start, cleanup_end.
  assert (Hu : fixed_offset (Pendulum.tz (now_utc self)) 0)
    by (split; reflexivity).
  assert (Hy : fixed_offset
                 (Pendulum.tz (Pendulum.subtract_years 10 (now_utc self))) 0)
    by (unfold Pendulum.subtract_years; rewrite add_years_tz; exact Hu).
  assert (Hk : fixed_offset
                 (Pendulum.tz
                    (Pendulum.subtract_days days_to_keep (now_utc self))) 0)
    by (rewrite subtract_days_tz; exact Hu).
  pose proof (start_of_day_midnight _ 0 Hy) as Hs.
  pose proof (end_of_day_last_second _ 0 Hk) as He.
  rewrite Z.add_0_r in Hs, He.
  split; [exact Hs|]. split; [exact He|].
  rewrite (end_of_day_timestamp _ 0 Hk).
  pose proof (day_contains_reference _ 0 Hk) as Hd.
  unfold Pendulum.subtract_days in Hd at 2 3.
  rewrite (add_days_timestamp _ _ 0 Hu) in Hd.
  split; intros Hkeep; lia.
Qed.

End CleanupBounds.

Lemma cleanup_window_bounds_witness :
  cleanup_end 30 (Mock.scheduler Mock.backlog Mock.backlog_clock) < 300000000 /\
  300000000 <= cleanup_end 0 (Mock.scheduler Mock.backlog Mock.backlog_clock).
Proof.
  split.
  - apply (proj1 (proj2 (proj2 (cleanup_window_bounds 30
                                  (Mock.scheduler Mock.backlog Mock.backlog_clock))))).
    discriminate.
  - apply (proj2 (proj2 (proj2 (cleanup_window_bounds 0
                                  (Mock.scheduler Mock.backlog Mock.backlog_clock))))).
    discriminate.
Defined.

Lemma cleanup_stops_when_listing_fails_witness :
  exists self',
    cleanup_calendar (L := Mock.libraries) (C := Mock.collaborator) 5 30
      (Mock.scheduler Mock.january_down Mock.backlog_clock)
    = Some (Raise (NylasSdkTimeoutError "https://api.us.nylas.com"), self') /\
    NylasScheduler.stdout self' = [].
Proof.
  destruct (proj1 (cleanup_stops_when_listing_fails
                     (L := Mock.libraries) (C := Mock.collaborator) 5 30
                     (Mock.scheduler Mock.january_down Mock.backlog_clock))
              (NylasSdkTimeoutError "https://api.us.nylas.com")
              (snd (match get_all_events (L := Mock.libraries)
                            (C := Mock.collaborator) 5
                            (cleanup_start
                               (Mock.scheduler Mock.january_down Mock.backlog_clock))
                            (Some (cleanup_end 30
                                     (Mock.scheduler Mock.january_down
                                        Mock.backlog_clock)))
                            (Mock.scheduler Mock.january_down Mock.backlog_clock)
                    with
                    | Some r => r
                    | None => (Ok [], Mock.scheduler Mock.january_down 0)
                    end))
              eq_refl)
    as (self' & Hrun & (_ & _ & _ & _ & _ & Hout) & _).
  exists self'. split; [exact Hrun | exact Hout].
Defined.

